(** * arxiv2kindle: the text transformations of [arxiv2kindle.py]

    A shallow embedding of the line-level logic of the script: the paper
    lookup of [download], the rewriting passes of [change_size], the
    style-file filter of [make_single_column] and the destination dispatch
    at the end of [main].

    Text is modelled as Rocq [string]s of 8-bit characters read as ASCII:
    the character classes of the regular expressions ([\d], [\w], [\b]) and
    of [str.strip] are the ASCII ones, so the model speaks about ASCII
    source files.  A file is the list of its lines as [readlines] returns
    them and [writelines] takes them. *)

From Stdlib Require Import Bool Arith Lia List Ascii String NArith ZArith
  DecimalString.
Import ListNotations.
Open Scope list_scope.
Open Scope string_scope.

(** ** Python run-time values *)

Module Py.

(** Exceptions the modelled code can raise. *)
Inductive exn : Type :=
| StopIteration
| IndexError
| AssertionError
| ValueError (msg : string)
| SystemError (msg : string)
| ReError (msg : string).

(** A computation either raises or returns. *)
Definition result (A : Type) : Type := (exn + A)%type.

Definition ret {A} (x : A) : result A := inr x.
Definition raise {A} (e : exn) : result A := inl e.

Definition bind {A B} (c : result A) (k : A -> result B) : result B :=
  match c with
  | inl e => inl e
  | inr x => k x
  end.

(** Statements of a loop or a comprehension, run left to right; the first
    exception aborts the rest. *)
Fixpoint mapM {A B} (f : A -> result B) (l : list A) : result (list B) :=
  match l with
  | [] => ret []
  | x :: t =>
      bind (f x) (fun y => bind (mapM f t) (fun t' => ret (y :: t')))
  end.

Fixpoint filterM {A} (f : A -> result bool) (l : list A) : result (list A) :=
  match l with
  | [] => ret []
  | x :: t =>
      bind (f x) (fun b =>
      bind (filterM f t) (fun t' => ret (if b then x :: t' else t')))
  end.

(** Characters. *)
Definition LF : ascii := "010"%char.
Definition nl : string := String LF "".

Definition in_range (lo hi : nat) (c : ascii) : bool :=
  let n := nat_of_ascii c in ((lo <=? n) && (n <=? hi))%nat.

(** [str.isspace] on ASCII: TAB..CR, FS..US and the blank. *)
Definition is_space (c : ascii) : bool :=
  in_range 9 13 c || in_range 28 32 c.

Definition is_digit (c : ascii) : bool := in_range 48 57 c.

(** [\w] on ASCII: letters, digits and the underscore. *)
Definition is_word (c : ascii) : bool :=
  in_range 97 122 c || in_range 65 90 c || is_digit c || Ascii.eqb c "_".

(** [s.lstrip()], [s.rstrip()], [s.strip()]. *)
Fixpoint lstrip (s : string) : string :=
  match s with
  | String c t => if is_space c then lstrip t else s
  | "" => ""
  end.

Fixpoint rstrip (s : string) : string :=
  match s with
  | String c t =>
      match rstrip t with
      | "" => if is_space c then "" else String c ""
      | t' => String c t'
      end
  | "" => ""
  end.

Definition strip (s : string) : string := rstrip (lstrip s).

(** [s.startswith(p)] and [p in s]. *)
Definition startswith (p s : string) : bool := String.prefix p s.

Fixpoint contains (p s : string) : bool :=
  String.prefix p s ||
  match s with
  | String _ t => contains p t
  | "" => false
  end.

Definition endswith (p s : string) : bool :=
  (String.length p <=? String.length s)%nat &&
  String.eqb (substring (String.length s - String.length p) (String.length p) s) p.

(** [sep.join(items)]. *)
Definition join (sep : string) (items : list string) : string :=
  String.concat sep items.

(** [l.insert(i, x)] for [0 <= i]: past the end it appends. *)
Definition list_insert {A} (i : nat) (x : A) (l : list A) : list A :=
  (firstn i l ++ x :: skipn i l)%list.

(** [l[i] = x] for [0 <= i]; out of range raises. *)
Fixpoint list_set {A} (i : nat) (x : A) (l : list A) : result (list A) :=
  match l, i with
  | [], _ => raise IndexError
  | _ :: t, 0 => ret (x :: t)
  | y :: t, S j => bind (list_set j x t) (fun t' => ret (y :: t'))
  end.

(** [l[i]] for [0 <= i]. *)
Definition list_get {A} (i : nat) (l : list A) : result A :=
  match nth_error l i with
  | Some x => ret x
  | None => raise IndexError
  end.

(** [f.readlines()] on the text of a file: the lines, each with its line
    feed, the last one possibly without.  The text is the one [read]
    returns, line endings already translated to line feeds. *)
Fixpoint readlines (text : string) : list string :=
  match text with
  | "" => []
  | String c t =>
      if Ascii.eqb c LF then String c "" :: readlines t
      else
        match readlines t with
        | [] => [String c ""]
        | line :: lines => String c line :: lines
        end
  end.



(** [f.writelines(lines)]. *)
Fixpoint writelines (lines : list string) : string :=
  match lines with
  | [] => ""
  | line :: t => line ++ writelines t
  end.

End Py.

Import Py.

Notation "x <- c ;; k" := (bind c (fun x => k))
  (at level 61, c at next level, right associativity).

(** ** The fragment of [re] the script uses *)

Module Re.

(** Patterns.  Repetition is only ever applied to a character class in
    the script, so [Plus] takes a class. *)
Inductive regex : Type :=
| Str (s : string)                 (* a literal string *)
| Plus (p : ascii -> bool)         (* [c+], greedy *)
| WordB                            (* [\b] *)
| Behind (p : ascii -> bool)       (* [(?<=c)] *)
| Ahead (p : ascii -> bool)        (* [(?=c)] *)
| Seq (r1 r2 : regex)
| Alt (r1 r2 : regex)
| Group (n : nat) (r : regex).     (* the [n]-th capturing group *)

(** A position in the subject: the character before it, the text from it
    on, how many characters the current match attempt has consumed, and the
    groups closed so far. *)
Record mstate : Type := MState {
  prev : option ascii;
  rest : string;
  taken : nat;
  groups : list (nat * string)
}.

Definition start (p : option ascii) (s : string) : mstate :=
  MState p s 0 [].

Fixpoint eat (lit : string) (st : mstate) : list mstate :=
  match lit with
  | "" => [st]
  | String c lit' =>
      match rest st with
      | String d t =>
          if Ascii.eqb c d
          then eat lit' (MState (Some d) t (S (taken st)) (groups st))
          else []
      | "" => []
      end
  end.

(** All the ways [c+] can match, longest first. *)
Fixpoint many1 (p : ascii -> bool) (s : string) (k : nat)
  : list (ascii * string * nat) :=
  match s with
  | String c t => if p c then (many1 p t (S k) ++ [(c, t, S k)])%list else []
  | "" => []
  end.

Definition opt_test (p : ascii -> bool) (o : option ascii) : bool :=
  match o with
  | Some c => p c
  | None => false
  end.

Definition next (st : mstate) : option ascii :=
  match rest st with
  | String c _ => Some c
  | "" => None
  end.

(** The end positions of the matches of [r] from [st], in the order in
    which the backtracking matcher of [re] finds them. *)
Fixpoint match_re (r : regex) (st : mstate) : list mstate :=
  match r with
  | Str s => eat s st
  | Plus p =>
      map (fun '(c, t, k) => MState (Some c) t k (groups st))
          (many1 p (rest st) (taken st))
  | WordB =>
      if xorb (opt_test is_word (prev st)) (opt_test is_word (next st))
      then [st] else []
  | Behind p => if opt_test p (prev st) then [st] else []
  | Ahead p => if opt_test p (next st) then [st] else []
  | Seq r1 r2 => flat_map (match_re r2) (match_re r1 st)
  | Alt r1 r2 => (match_re r1 st ++ match_re r2 st)%list
  | Group n r1 =>
      map (fun st' =>
             MState (prev st') (rest st') (taken st')
                    ((n, substring 0 (taken st' - taken st) (rest st))
                       :: groups st'))
          (match_re r1 st)
  end.

(** The first match at a position. *)
Definition match_at (r : regex) (p : option ascii) (s : string)
  : option mstate :=
  match match_re r (start p s) with
  | st :: _ => Some st
  | [] => None
  end.

(** [re.search]: the leftmost position with a match. *)
Fixpoint search_from (r : regex) (p : option ascii) (s : string)
  : option mstate :=
  match match_at r p s with
  | Some st => Some st
  | None =>
      match s with
      | String c t => search_from r (Some c) t
      | "" => None
      end
  end.

Definition search (r : regex) (s : string) : option mstate :=
  search_from r None s.

(** [m.group(n)] of a group that took part in the match. *)
Fixpoint assoc (n : nat) (g : list (nat * string)) : string :=
  match g with
  | [] => ""
  | (k, v) :: g' => if Nat.eqb k n then v else assoc n g'
  end.

Definition group (n : nat) (m : mstate) : string := assoc n (groups m).

(** Replacement templates: a backslash followed by a backslash is one
    backslash, the letter escapes of [re] are control characters, other
    ASCII letters are rejected, and a backslash before any other character
    stays with that character.  No template of the script holds a group
    reference (a backslash before a digit or [g]); they are rejected with
    the letters. *)
Definition escape (c : ascii) : option ascii :=
  if Ascii.eqb c "\" then Some "\"%char
  else if Ascii.eqb c "a" then Some "007"%char
  else if Ascii.eqb c "b" then Some "008"%char
  else if Ascii.eqb c "f" then Some "012"%char
  else if Ascii.eqb c "n" then Some "010"%char
  else if Ascii.eqb c "r" then Some "013"%char
  else if Ascii.eqb c "t" then Some "009"%char
  else if Ascii.eqb c "v" then Some "011"%char
  else None.

Fixpoint expand (t : string) : result string :=
  match t with
  | "" => ret ""
  | String c t1 =>
      if Ascii.eqb c "\" then
        match t1 with
        | "" => raise (ReError "bad escape (end of pattern)")
        | String d t2 =>
            match escape d with
            | Some e => u <- expand t2 ;; ret (String e u)
            | None =>
                if is_word d && negb (Ascii.eqb d "_")
                then raise (ReError "bad escape")
                else u <- expand t2 ;; ret (String c (String d u))
            end
        end
      else u <- expand t1 ;; ret (String c u)
  end.

(** [re.sub] with an expanded replacement: matches are found left to
    right and do not overlap; [skip] counts the characters of the current
    match still to be dropped.  The script's patterns never match the
    empty string; an empty match is replaced and the scan moves on by one
    character. *)
Fixpoint sub_from (r : regex) (repl : string) (p : option ascii)
  (skip : nat) (s : string) : string :=
  match skip with
  | S k =>
      match s with
      | String c t => sub_from r repl (Some c) k t
      | "" => ""
      end
  | 0 =>
      match match_at r p s with
      | Some st =>
          repl ++
          match s with
          | String c t =>
              match taken st with
              | 0 => String c (sub_from r repl (Some c) 0 t)
              | S k => sub_from r repl (Some c) k t
              end
          | "" => ""
          end
      | None =>
          match s with
          | String c t => String c (sub_from r repl (Some c) 0 t)
          | "" => ""
          end
      end
  end.

(** [re.sub(r, template, s)]. *)
Definition sub (r : regex) (template : string) (s : string) : result string :=
  repl <- expand template ;;
  ret (sub_from r repl None 0 s).

End Re.

Import Re.

Infix ">>" := Seq (at level 60, right associativity).

(** ** Decimal arithmetic for [float(s) / 2]

    [float], the division and the formatting of the quotient belong to the
    Python run time; the rewriter below takes them as a parameter.
    [half_repr] is the instance used on concrete inputs: exact decimal
    halving, printed the way [repr] prints a float.  It agrees with CPython
    as long as the exact half has at most 15 significant digits and lies
    in the range of normal doubles, where the binary quotient prints as the
    exact decimal one; beyond that CPython rounds to 17 digits, overflows
    to [inf] or underflows to [0.0], and this instance does not.  The
    message of its [ValueError] leaves out the numeral. *)

Module PyFloat.

Fixpoint all_digits (s : string) : bool :=
  match s with
  | "" => true
  | String c t => is_digit c && all_digits t
  end.

Fixpoint split_dot (s : string) : string * option string :=
  match s with
  | "" => ("", None)
  | String c t =>
      if Ascii.eqb c "." then ("", Some t)
      else let (a, b) := split_dot t in (String c a, b)
  end.

Definition to_N (digits : string) : N :=
  match NilZero.uint_of_string digits with
  | Some u => N.of_uint u
  | None => 0%N
  end.

(** The value [m / 10^e] of a numeral, or nothing when [float] rejects it. *)
Definition parse (s : string) : option (N * nat) :=
  let (ip, fo) := split_dot s in
  let fp := match fo with Some f => f | None => "" end in
  if all_digits ip && all_digits fp
     && (0 <? String.length ip + String.length fp)%nat
  then Some (to_N (ip ++ fp), String.length fp)
  else None.

Fixpoint zeros (n : nat) : string :=
  match n with
  | 0 => ""
  | S k => String "0" (zeros k)
  end.

Fixpoint drop_trailing_zeros (s : string) : string :=
  match s with
  | "" => ""
  | String c t =>
      match drop_trailing_zeros t with
      | "" => if Ascii.eqb c "0" then "" else String c ""
      | t' => String c t'
      end
  end.

Definition digits_of (n : N) : string := NilZero.string_of_uint (N.to_uint n).

Definition two_digits (n : nat) : string :=
  let d := digits_of (N.of_nat n) in
  if (String.length d <? 2)%nat then "0" ++ d else d.

(** [repr] of the float [m / 10^e]. *)
Definition render (m : N) (e : nat) : string :=
  let d := digits_of m in
  let len := String.length d in
  let sig := drop_trailing_zeros d in
  if N.eqb m 0 then "0.0"
  else if (len + 4 <=? e)%nat || (e + 16 <? len)%nat then
    (* scientific notation: decimal point position outside -4 < . <= 16 *)
    let mant :=
      match sig with
      | String c "" => String c ""
      | String c t => String c ("." ++ t)
      | "" => ""
      end in
    if (e <? len)%nat
    then mant ++ "e+" ++ two_digits (len - e - 1)
    else mant ++ "e-" ++ two_digits (e + 1 - len)
  else
    let padded := zeros (S e - len) ++ d in
    let plen := String.length padded in
    let ip := substring 0 (plen - e) padded in
    let fp := drop_trailing_zeros (substring (plen - e) e padded) in
    ip ++ "." ++ (if String.eqb fp "" then "0" else fp).

(** [str(float(s) / 2)]. *)
Definition half_repr (s : string) : result string :=
  match parse s with
  | Some (m, e) => ret (render (5 * m) (S e))
  | None => raise (ValueError "could not convert string to float")
  end.

End PyFloat.

(** ** The Source Fetcher: paper lookup of [download] *)

Module Fetcher.

Record paper : Type := Paper { id : string; title : string }.

(** [x, = l]: unpacking into a one-element target. *)
Definition unpack1 {A} (l : list A) : result A :=
  match l with
  | [] => raise (ValueError "not enough values to unpack (expected 1, got 0)")
  | [x] => ret x
  | _ :: _ :: _ => raise (ValueError "too many values to unpack (expected 1)")
  end.

(** [try: c except ValueError: raise e]. *)
Definition except_ValueError {A} (c : result A) (e : exn) : result A :=
  match c with
  | inl (ValueError _) => raise e
  | other => other
  end.

(** The first statement of [download], on the records the repository
    returned for the query. *)
Definition lookup (records : list paper) : result paper :=
  except_ValueError (unpack1 records) (SystemError "Paper not found").

(** [is_main_file], on the text of the file. *)
Definition is_main_file (text : string) : bool :=
  if contains "\documentclass" text then true else false.

(** The files [glob('*.tex')] yields that are main files. *)
Definition main_files (files : list (string * string))
  : list (string * string) :=
  filter (fun '(file_name, text) =>
            endswith ".tex" file_name && is_main_file text)
         files.

(** [download] after the query: [archive] is nothing when no
    [src.tar.gz] has appeared in the temporary directory, and otherwise
    the regular files at the top of the directory once the archive is
    extracted, by name, with their text.  The result is the directory,
    the main file and the title. *)
Definition download (records : list paper)
  (archive : option (list (string * string)))
  : result (list (string * string) * (string * string) * string) :=
  paper <- lookup records ;;
  let arxiv_title := title paper in
  match archive with
  | None => raise (SystemError "Paper sources are not available")
  | Some files =>
      match main_files files with
      | [main_file] => ret (files, main_file, arxiv_title)
      | _ => raise AssertionError
      end
  end.

End Fetcher.

(** ** The Geometry Rewriter: [change_size] *)

Module Rewriter.

(** The patterns of the script. *)
Definition font_size_re : regex :=            (* \b\d+pt\b *)
  WordB >> Plus is_digit >> Str "pt" >> WordB.
Definition column_re : regex :=               (* \b\w+column\b *)
  WordB >> Plus is_word >> Str "column" >> WordB.
Definition paper_re : regex :=                (* \b\w+paper\b *)
  WordB >> Plus is_word >> Str "paper" >> WordB.
Definition leading_comma_re : regex :=        (* (?<=\[), *)
  Behind (Ascii.eqb "[") >> Str ",".
Definition trailing_comma_re : regex :=       (* ,(?=[\],]) *)
  Str "," >> Ahead (fun c => Ascii.eqb c "]" || Ascii.eqb c ",").

Definition dot_or_digit (c : ascii) : bool := Ascii.eqb c "." || is_digit c.
Definition not_newline (c : ascii) : bool := negb (Ascii.eqb c LF).

(* \\includegraphics\[width=([.\d]+)\\(line|text)width\] *)
Definition width_re : regex :=
  Str "\includegraphics[width=" >> Group 1 (Plus dot_or_digit) >> Str "\"
    >> Group 2 (Alt (Str "line") (Str "text")) >> Str "width]".
Definition bare_re : regex :=                 (* \\includegraphics{ *)
  Str "\includegraphics{".
Definition scale_re : regex :=   (* \\includegraphics\[scale=([.\d]+)\] *)
  Str "\includegraphics[scale=" >> Group 1 (Plus dot_or_digit) >> Str "]".
Definition inline_math_re : regex :=          (* \$.+\$ *)
  Str "$" >> Plus not_newline >> Str "$".

(** The generator of line 100: the index of the first line holding the
    marker. *)
Fixpoint first_index (f : string -> bool) (src : list string) : result nat :=
  match src with
  | [] => raise StopIteration
  | line :: t => if f line then ret 0 else i <- first_index f t ;; ret (S i)
  end.

(** The condition of the comprehension of line 104. *)
Definition keep_line (line : string) : result bool :=
  match line with
  | "" => raise IndexError
  | String c _ =>
      ret (negb (Ascii.eqb c "%") && (0 <? String.length (strip line))%nat)
  end.

(** [src[i] = re.sub(r, template, src[i])]. *)
Definition sub_at (r : regex) (template : string) (i : nat)
  (src : list string) : result (list string) :=
  line <- list_get i src ;;
  line' <- Re.sub r template line ;;
  list_set i line' src.

(** Lines 107 to 113. *)
Definition strip_class_options (i : nat) (src : list string)
  : result (list string) :=
  src <- sub_at font_size_re "" i src ;;
  src <- sub_at column_re "" i src ;;
  src <- sub_at paper_re "" i src ;;
  src <- sub_at leading_comma_re "" i src ;;
  sub_at trailing_comma_re "" i src.

(** The comprehension of line 116. *)
Fixpoint indices_from (f : string -> bool) (i : nat) (src : list string)
  : list nat :=
  match src with
  | [] => []
  | line :: t =>
      if f line then i :: indices_from f (S i) t else indices_from f (S i) t
  end.

(** Line 118 and 119; the settings are a dict, iterated in insertion
    order. *)
Definition geom_settings_str (geom_settings : list (string * string))
  (landscape : bool) : string :=
  join "," (map (fun '(k, v) => k ++ "=" ++ v) geom_settings)
    ++ (if landscape then ",landscape" else "").

(** Lines 120 to 127. *)
Definition insert_preamble (at_ : nat) (geom_settings : list (string * string))
  (landscape : bool) (src : list string) : list string :=
  let src :=
    list_insert at_
      ("\usepackage[" ++ geom_settings_str geom_settings landscape
         ++ "]{geometry}" ++ nl) src in
  let src := list_insert at_ ("\usepackage{times}" ++ nl) src in
  let src := list_insert at_ ("\pagestyle{empty}" ++ nl) src in
  let src := list_insert at_ ("\usepackage{breqn}" ++ nl) src in
  if landscape then list_insert at_ ("\usepackage{pdflscape}" ++ nl) src
  else src.

(** The body of the loop of line 158. *)
Definition sloppy_line (line : string) : string :=
  match Re.search inline_math_re line with
  | Some _ => "\sloppy " ++ line
  | None => line
  end.

Section WithFloat.

(** [str(float(s) / 2)], from the run time. *)
Variable float_half : string -> result string.

(** The body of the loop of line 130: the three figure patterns, first
    match wins. *)
Definition figure_line (line : string) : result string :=
  match Re.search width_re line with
  | Some m =>
      let mul := group 1 m in
      Re.sub width_re
        ("\\includegraphics[width=" ++ mul ++ "\\textwidth,height=" ++ mul
           ++ "\\textheight,keepaspectratio]")
        line
  | None =>
      if contains "\includegraphics{" line then
        Re.sub bare_re "\\includegraphics[scale=0.5]{" line
      else
        match Re.search scale_re line with
        | Some m =>
            half <- float_half (group 1 m) ;;
            Re.sub scale_re ("\\includegraphics\[scale=" ++ half ++ "\]") line
        | None => ret line
        end
  end.

(** [change_size] from the lines read to the lines written. *)
Definition change_size (src : list string)
  (geom_settings : list (string * string)) (landscape : bool)
  : result (list string) :=
  dclass_idx <- first_index (contains "\documentclass") src ;;
  src <- filterM keep_line src ;;
  src <- strip_class_options dclass_idx src ;;
  match indices_from (startswith "\begin{document}") 0 src with
  | [begindoc] =>
      let src := insert_preamble begindoc geom_settings landscape src in
      src <- mapM figure_line src ;;
      ret (map sloppy_line src)
  | _ => raise AssertionError
  end.

(** [change_size] from the text read to the text written. *)
Definition change_size_text (text : string)
  (geom_settings : list (string * string)) (landscape : bool)
  : result string :=
  src <- change_size (readlines text) geom_settings landscape ;;
  ret (writelines src).

End WithFloat.

End Rewriter.

(** ** The Single-Column Normalizer: [make_single_column] *)

Module Normalizer.

(** The loop over the lines of one style file; [out_src] is the list
    being appended to. *)
Fixpoint drop_twocolumn (src out_src : list string) : list string :=
  match src with
  | [] => out_src
  | line :: t =>
      if String.eqb (strip line) "\twocolumn"
      then drop_twocolumn t out_src
      else drop_twocolumn t (out_src ++ [line])
  end.

Definition rewrite_style (src : list string) : list string :=
  drop_twocolumn src [].

(** The files of the work directory, by name: [glob('*.sty')] selects the
    names ending in [.sty]. *)
Definition make_single_column (work_dir : list (string * list string))
  : list (string * list string) :=
  map (fun '(filename, src) =>
         if endswith ".sty" filename then (filename, rewrite_style src)
         else (filename, src))
      work_dir.

(** The body of the loop over the files, from the text read to the text
    written. *)
Definition rewrite_style_text (text : string) : string :=
  writelines (rewrite_style (readlines text)).


End Normalizer.

(** ** Delivery: the destination dispatch at the end of [main] *)

Module Delivery.

Definition path : Type := string.

(** What [main] asks of the operating system. *)
Inductive effect : Type :=
| OsRename (src dst : path)
| StdoutWrite (data : list Byte.byte).

Section World.

Variable is_dir : path -> bool.                  (* [p.is_dir()] *)
Variable read_bytes : path -> list Byte.byte.    (* [open(p, 'rb').read()] *)
Variable joinpath : path -> string -> path.      (* [p / name] *)
Variable with_suffix : path -> string -> path.   (* [p.with_suffix(ext)] *)

(** Lines 223 and 227 to 233; [dest] is given by its [str]. *)
Definition deliver (main_file dest : path) (title : string) : list effect :=
  let pdf_file := with_suffix main_file ".pdf" in
  if is_dir dest then
    [OsRename pdf_file (joinpath dest (title ++ ".pdf"))]
  else if String.eqb dest "-" then
    [StdoutWrite (read_bytes (with_suffix main_file ".pdf"))]
  else
    [OsRename pdf_file dest].

End World.

End Delivery.

(** ** The prerequisite check: [check_prerec] *)

Module Prereq.

Section Tools.

(** [subprocess.run(cmd).returncode]; a command that cannot be started
    raises. *)
Variable run : list string -> result Z.

Definition check_prerec (landscape : bool) : result unit :=
  code <- run ["pdflatex"; "--version"] ;;
  if negb (Z.eqb code 0) then raise (SystemError "no pdflatex found")
  else if landscape then
    code <- run ["pdftk"; "--version"] ;;
    if negb (Z.eqb code 0)
    then raise (SystemError "no pdftk found (required for landscape mode)")
    else ret tt
  else ret tt.

End Tools.

End Prereq.

(** ** Vocabulary of the specification *)

Module Spec.

Import Rewriter.

Fixpoint all_space (s : string) : bool :=
  match s with
  | "" => true
  | String c t => is_space c && all_space t
  end.

(** A line whose entire trimmed content is the two-column directive. *)
Definition bare_twocolumn (line : string) : Prop :=
  exists a b,
    all_space a = true /\ all_space b = true /\
    line = a ++ "\twocolumn" ++ b.

(** [out] is [src] with exactly the bare two-column lines removed, the
    other lines unchanged and in order. *)
Inductive drops_bare_twocolumn : list string -> list string -> Prop :=
| dbt_nil : drops_bare_twocolumn [] []
| dbt_drop line src out :
    bare_twocolumn line ->
    drops_bare_twocolumn src out ->
    drops_bare_twocolumn (line :: src) out
| dbt_keep line src out :
    ~ bare_twocolumn line ->
    drops_bare_twocolumn src out ->
    drops_bare_twocolumn (line :: src) (line :: out).

(** A line as [readlines] returns it: no line feed except as its last
    character. *)
Fixpoint one_line (s : string) : bool :=
  match s with
  | "" => true
  | String c t => if Ascii.eqb c LF then String.eqb t "" else one_line t
  end.

(** A line holding text delimited by a pair of dollar signs. *)
Definition inline_math (line : string) : Prop :=
  exists a t b, t <> "" /\ line = a ++ "$" ++ t ++ "$" ++ b.

(** Strings without a given character. *)
Fixpoint free_of (c : ascii) (s : string) : bool :=
  match s with
  | "" => true
  | String d t => negb (Ascii.eqb c d) && free_of c t
  end.

Definition plain (s : string) : bool := free_of "\" s && free_of "$" s.

(** Geometry settings whose names and values hold no backslash and no
    dollar sign, as those [main] builds from numbers. *)
Definition plain_settings (geom_settings : list (string * string)) : bool :=
  forallb (fun '(k, v) => plain k && plain v) geom_settings.

(** The geometry package invocation: the settings as comma-joined
    [key=value] pairs, [,landscape] appended when the flag is set. *)
Definition geometry_line (geom_settings : list (string * string))
  (landscape : bool) : string :=
  "\usepackage["
    ++ join "," (map (fun '(k, v) => k ++ "=" ++ v) geom_settings)
    ++ (if landscape then ",landscape" else "")
    ++ "]{geometry}" ++ nl.

Definition pdflscape_line : string := "\usepackage{pdflscape}" ++ nl.
Definition breqn_line : string := "\usepackage{breqn}" ++ nl.
Definition pagestyle_line : string := "\pagestyle{empty}" ++ nl.
Definition times_line : string := "\usepackage{times}" ++ nl.

(** The lines [change_size] inserts, top to bottom as they stand in the
    output. *)
Definition inserted_lines (geom_settings : list (string * string))
  (landscape : bool) : list string :=
  ((if landscape then [pdflscape_line] else []) ++
   [breqn_line; pagestyle_line; times_line;
    geometry_line geom_settings landscape])%list.

(** The order in which the specification lists the inserted lines. *)
Definition inserted_lines_as_specified (geom_settings : list (string * string))
  (landscape : bool) : list string :=
  ([pagestyle_line; breqn_line; times_line;
    geometry_line geom_settings landscape] ++
   (if landscape then [pdflscape_line] else []))%list.

(** The two passes that follow the insertion, on a block of lines. *)
Definition later_passes (float_half : string -> result string)
  (src : list string) : result (list string) :=
  src <- mapM (figure_line float_half) src ;;
  ret (map sloppy_line src).

(** The pipeline of [change_size] without the comprehension that drops
    comment and blank lines. *)
Definition change_size_unfiltered (float_half : string -> result string)
  (src : list string) (geom_settings : list (string * string))
  (landscape : bool) : result (list string) :=
  dclass_idx <- first_index (contains "\documentclass") src ;;
  src <- strip_class_options dclass_idx src ;;
  match indices_from (startswith "\begin{document}") 0 src with
  | [begindoc] =>
      let src := insert_preamble begindoc geom_settings landscape src in
      src <- mapM (figure_line float_half) src ;;
      ret (map sloppy_line src)
  | _ => raise AssertionError
  end.

(** What the comprehension removes, when no line is empty. *)
Definition kept (line : string) : bool :=
  match keep_line line with
  | inr b => b
  | inl _ => false
  end.

(** The five substitutions of the document-class line, on text that
    follows the character [p]. *)
Definition strip_options_after (p : option ascii) (s : string) : string :=
  let s := sub_from font_size_re "" p 0 s in
  let s := sub_from column_re "" p 0 s in
  let s := sub_from paper_re "" p 0 s in
  let s := sub_from leading_comma_re "" p 0 s in
  sub_from trailing_comma_re "" p 0 s.

(** The lines of a file: none is empty, a line feed only ends a line, and
    only the last line may lack it. *)
Fixpoint file_lines (lines : list string) : Prop :=
  match lines with
  | [] => True
  | [line] => line <> "" /\ one_line line = true
  | line :: t => (exists body, line = body ++ nl /\ free_of LF body = true)
                 /\ file_lines t
  end.

(** The character before the position reached after reading [x]. *)
Fixpoint prev_after (p : option ascii) (x : string) : option ascii :=
  match x with
  | "" => p
  | String c t => prev_after (Some c) t
  end.

(** Strings made of the characters of a class. *)
Fixpoint all_of (p : ascii -> bool) (s : string) : bool :=
  match s with
  | "" => true
  | String c t => p c && all_of p t
  end.

(** The pattern [r] matches at no position of [s]. *)
Definition no_match (r : regex) (s : string) : Prop :=
  forall a b q, s = a ++ b -> match_at r q b = None.

(** The pattern [r] matches at no position of [a] when [s] follows. *)
Definition no_match_in (r : regex) (a s : string) : Prop :=
  forall a1 a2 q, a = a1 ++ a2 -> a2 <> "" -> match_at r q (a2 ++ s) = None.

End Spec.

Import Rewriter Spec.

(** * Properties *)

(** ** Strings *)

Lemma append_empty_r (s : string) : s ++ "" = s.
Proof. induction s; simpl; congruence. Qed.

Lemma append_assoc (a b c : string) : (a ++ b) ++ c = a ++ b ++ c.
Proof. induction a; simpl; congruence. Qed.

Lemma lstrip_split (s : string) :
  exists a, all_space a = true /\ s = a ++ lstrip s.
Proof.
  induction s as [|c t [a [Ha Ht]]]; simpl.
  - exists ""; auto.
  - destruct (is_space c) eqn:E.
    + exists (String c a); simpl; rewrite E, Ha; split; [reflexivity|congruence].
    + exists ""; auto.
Qed.

Lemma rstrip_split (s : string) :
  exists b, all_space b = true /\ s = rstrip s ++ b.
Proof.
  induction s as [|c t [b [Hb Ht]]]; simpl.
  - exists ""; auto.
  - destruct (rstrip t) eqn:E.
    + destruct (is_space c) eqn:Ec.
      * exists (String c b); simpl in *; rewrite Ec, Hb; split; [reflexivity|congruence].
      * exists b; simpl in *; split; [assumption|congruence].
    + exists b; split; auto. rewrite Ht at 1. reflexivity.
Qed.

Lemma lstrip_spaces (a s : string) :
  all_space a = true -> lstrip (a ++ s) = lstrip s.
Proof.
  induction a as [|c a IH]; simpl; auto.
  intros H; apply andb_prop in H as [Hc Ha]; rewrite Hc; auto.
Qed.

Lemma rstrip_all_space (b : string) : all_space b = true -> rstrip b = "".
Proof.
  induction b as [|c b IH]; simpl; auto.
  intros H; apply andb_prop in H as [Hc Hb]; rewrite (IH Hb), Hc; auto.
Qed.

Lemma rstrip_spaces (s b : string) :
  all_space b = true -> rstrip (s ++ b) = rstrip s.
Proof.
  intros Hb; induction s as [|c s IH]; simpl.
  - apply rstrip_all_space; assumption.
  - rewrite IH; reflexivity.
Qed.

(** [strip] leaves the directive exactly on the bare lines. *)
Lemma strip_twocolumn (line : string) :
  strip line = "\twocolumn" <-> bare_twocolumn line.
Proof.
  unfold strip, bare_twocolumn; split.
  - intros H.
    destruct (lstrip_split line) as [a [Ha El]].
    destruct (rstrip_split (lstrip line)) as [b [Hb Er]].
    exists a, b; repeat split; auto.
    rewrite El at 1; rewrite Er at 1; rewrite H; reflexivity.
  - intros [a [b [Ha [Hb ->]]]].
    rewrite lstrip_spaces by assumption.
    change (lstrip ("\twocolumn" ++ b)) with ("\twocolumn" ++ b).
    rewrite rstrip_spaces by assumption; reflexivity.
Qed.

(** ** The Single-Column Normalizer *)

Lemma drop_twocolumn_filter (src out_src : list string) :
  Normalizer.drop_twocolumn src out_src =
  (out_src ++
   filter (fun line => negb (String.eqb (strip line) "\twocolumn")) src)%list.
Proof.
  revert out_src; induction src as [|line t IH]; intros out_src; simpl.
  - rewrite app_nil_r; reflexivity.
  - destruct (String.eqb (strip line) "\twocolumn"); simpl; rewrite IH.
    + reflexivity.
    + rewrite <- app_assoc; reflexivity.
Qed.

Lemma rewrite_style_filter (src : list string) :
  Normalizer.rewrite_style src =
  filter (fun line => negb (String.eqb (strip line) "\twocolumn")) src.
Proof. unfold Normalizer.rewrite_style; apply drop_twocolumn_filter. Qed.

Lemma rewrite_style_drops (src : list string) :
  drops_bare_twocolumn src (Normalizer.rewrite_style src).
Proof.
  rewrite rewrite_style_filter.
  induction src as [|line t IH]; simpl; [constructor|].
  destruct (String.eqb_spec (strip line) "\twocolumn") as [E|E]; simpl.
  - apply dbt_drop; [apply strip_twocolumn|]; assumption.
  - apply dbt_keep; [rewrite <- strip_twocolumn|]; assumption.
Qed.

Lemma rewrite_style_idem (src : list string) :
  Normalizer.rewrite_style (Normalizer.rewrite_style src) =
  Normalizer.rewrite_style src.
Proof.
  rewrite !rewrite_style_filter.
  induction src as [|line t IH]; simpl; auto.
  destruct (String.eqb (strip line) "\twocolumn") eqn:E; simpl; auto.
  rewrite E; simpl; congruence.
Qed.

(** The bare directive inside blanks is dropped; a longer command name and
    a line with other text are kept. *)
Example normalizer_examples :
  Normalizer.rewrite_style
    ["\begin{x}" ++ nl; "  \twocolumn  " ++ nl;
     "\twocolumnsomething" ++ nl; "x \twocolumn" ++ nl; "\twocolumn"]
  = ["\begin{x}" ++ nl; "\twocolumnsomething" ++ nl; "x \twocolumn" ++ nl].
Proof. reflexivity. Qed.

(** C6: in every file of the work directory whose name ends in [.sty],
    exactly the lines whose trimmed content is the two-column directive
    are removed; every other line stays, unchanged and in order. *)
Theorem normalizer_drops_exactly_bare_twocolumn :
  forall (work_dir : list (string * list string)) filename src,
    In (filename, src) work_dir ->
    endswith ".sty" filename = true ->
    exists out,
      In (filename, out) (Normalizer.make_single_column work_dir) /\
      drops_bare_twocolumn src out.
Proof.
  intros work_dir filename src Hin Hsty.
  exists (Normalizer.rewrite_style src); split.
  - unfold Normalizer.make_single_column.
    apply in_map_iff; exists (filename, src); rewrite Hsty; auto.
  - apply rewrite_style_drops.
Qed.

Lemma normalizer_drops_exactly_bare_twocolumn_witness :
  exists out,
    In ("icml.sty", out)
       (Normalizer.make_single_column
          [("main.tex", ["\twocolumn" ++ nl]);
           ("icml.sty", [" \twocolumn " ++ nl; "\twocolumnx" ++ nl])]) /\
    drops_bare_twocolumn [" \twocolumn " ++ nl; "\twocolumnx" ++ nl] out.
Proof.
  apply (normalizer_drops_exactly_bare_twocolumn
           [("main.tex", ["\twocolumn" ++ nl]);
            ("icml.sty", [" \twocolumn " ++ nl; "\twocolumnx" ++ nl])]).
  - simpl; auto.
  - reflexivity.
Defined.

(** C10: the filter is idempotent on the lines of a file, and running the
    Normalizer again over a work directory changes nothing. *)
Theorem normalizer_idempotent :
  (forall src,
     Normalizer.rewrite_style (Normalizer.rewrite_style src) =
     Normalizer.rewrite_style src) /\
  (forall work_dir,
     Normalizer.make_single_column (Normalizer.make_single_column work_dir) =
     Normalizer.make_single_column work_dir).
Proof.
  split; [exact rewrite_style_idem|].
  intros work_dir; unfold Normalizer.make_single_column.
  rewrite map_map; apply map_ext; intros [filename src].
  destruct (endswith ".sty" filename) eqn:E; rewrite E;
    [rewrite rewrite_style_idem|]; reflexivity.
Qed.

(** ** The Source Fetcher *)

(** C8, as stated, fails: a query answered by two records does not
    surface the unpacking error; the handler of [download] turns it into
    the paper-not-found condition as well. *)
Lemma lookup_two_records_not_unpacking_error :
  Fetcher.lookup
    [Fetcher.Paper "1802.08395v1" "A"; Fetcher.Paper "1802.08395v2" "B"]
  = raise (SystemError "Paper not found") /\
  forall msg,
    Fetcher.lookup
      [Fetcher.Paper "1802.08395v1" "A"; Fetcher.Paper "1802.08395v2" "B"]
    <> raise (ValueError msg).
Proof. split; [reflexivity | intros msg; discriminate]. Qed.

(** C8, amended: a query that resolves to no record or to several fails
    with the paper-not-found condition in both cases; a single record is
    returned. *)
Theorem lookup_not_found_unless_single :
  forall records : list Fetcher.paper,
    (List.length records <> 1 ->
     Fetcher.lookup records = raise (SystemError "Paper not found")) /\
    (forall p, records = [p] -> Fetcher.lookup records = ret p).
Proof.
  intros records; split.
  - destruct records as [|p [|q t]]; simpl; intros H;
      [reflexivity | contradiction | reflexivity].
  - intros p ->; reflexivity.
Qed.

Lemma lookup_not_found_unless_single_witness :
  Fetcher.lookup [] = raise (SystemError "Paper not found") /\
  Fetcher.lookup [Fetcher.Paper "1802.08395" "T"]
  = ret (Fetcher.Paper "1802.08395" "T").
Proof.
  split.
  - apply (proj1 (lookup_not_found_unless_single [])); simpl; lia.
  - apply (proj2 (lookup_not_found_unless_single
                    [Fetcher.Paper "1802.08395" "T"])); reflexivity.
Defined.

(** ** Delivery *)

(** C9 at a failing input: a destination [-] that exists as a directory
    has the PDF moved into it under the title; nothing is written to the
    standard output, although the sentinel was given and the help of the
    [dest] argument promises the stream. *)
Theorem deliver_sentinel_directory_not_streamed :
  forall (is_dir : Delivery.path -> bool)
         (read_bytes : Delivery.path -> list Byte.byte)
         (joinpath : Delivery.path -> string -> Delivery.path)
         (with_suffix : Delivery.path -> string -> Delivery.path)
         (main_file : Delivery.path) (title : string),
    is_dir "-" = true ->
    Delivery.deliver is_dir read_bytes joinpath with_suffix main_file "-" title
    = [Delivery.OsRename (with_suffix main_file ".pdf")
         (joinpath "-" (title ++ ".pdf"))] /\
    Delivery.deliver is_dir read_bytes joinpath with_suffix main_file "-" title
    <> [Delivery.StdoutWrite (read_bytes (with_suffix main_file ".pdf"))].
Proof.
  intros is_dir read_bytes joinpath with_suffix main_file title H.
  unfold Delivery.deliver; rewrite H; split; [reflexivity | discriminate].
Qed.

Lemma deliver_sentinel_directory_not_streamed_witness :
  Delivery.deliver (fun p => String.eqb p "-")
    (fun _ => [Byte.x25; Byte.x50]) (fun d n => d ++ "/" ++ n)
    (fun p e => p ++ e) "src" "-" "Title"
  = [Delivery.OsRename "src.pdf" "-/Title.pdf"] /\
  Delivery.deliver (fun p => String.eqb p "-")
    (fun _ => [Byte.x25; Byte.x50]) (fun d n => d ++ "/" ++ n)
    (fun p e => p ++ e) "src" "-" "Title"
  <> [Delivery.StdoutWrite [Byte.x25; Byte.x50]].
Proof.
  apply (deliver_sentinel_directory_not_streamed
           (fun p => String.eqb p "-") (fun _ => [Byte.x25; Byte.x50])
           (fun d n => d ++ "/" ++ n) (fun p e => p ++ e) "src" "Title").
  reflexivity.
Defined.

(** The three branches in the order the code tries them: an existing
    directory receives the PDF under the title plus [.pdf]; otherwise the
    sentinel sends the bytes of the compiled PDF to the standard output;
    otherwise the PDF is moved to the given path. *)
Lemma deliver_dispatch :
  forall is_dir read_bytes joinpath with_suffix main_file dest title,
    let pdf_file := with_suffix main_file ".pdf" in
    let run :=
      Delivery.deliver is_dir read_bytes joinpath with_suffix
        main_file dest title in
    (is_dir dest = true ->
     run = [Delivery.OsRename pdf_file (joinpath dest (title ++ ".pdf"))]) /\
    (is_dir dest = false -> dest = "-" ->
     run = [Delivery.StdoutWrite (read_bytes pdf_file)]) /\
    (is_dir dest = false -> dest <> "-" ->
     run = [Delivery.OsRename pdf_file dest]).
Proof.
  intros is_dir read_bytes joinpath with_suffix main_file dest title.
  unfold Delivery.deliver; cbv zeta.
  destruct (is_dir dest); repeat split; try discriminate; intros _.
  - intros ->; reflexivity.
  - intros H; apply String.eqb_neq in H; rewrite H; reflexivity.
Qed.

(** ** The matcher *)

Lemma search_from_unfold (r : regex) (p : option ascii) (s : string) :
  search_from r p s =
  match match_at r p s with
  | Some st => Some st
  | None =>
      match s with
      | String c t => search_from r (Some c) t
      | "" => None
      end
  end.
Proof. destruct s; reflexivity. Qed.

(** A successful search matched at some position of the subject. *)
Lemma search_from_inv (r : regex) (s : string) :
  forall p m,
    search_from r p s = Some m ->
    exists a b q, s = a ++ b /\ match_at r q b = Some m.
Proof.
  induction s as [|c t IH]; intros p m; rewrite search_from_unfold;
    destruct (match_at r p _) as [st|] eqn:E; intros H; try discriminate.
  - injection H as <-; exists "", "", p; auto.
  - injection H as <-; exists "", (String c t), p; auto.
  - destruct (IH _ _ H) as [a [b [q [-> Hm]]]].
    exists (String c a), b, q; auto.
Qed.

(** A position where the pattern matches whatever precedes it makes the
    search succeed. *)
Lemma search_from_found (r : regex) (b : string) :
  (forall q, match_at r q b <> None) ->
  forall a p, search_from r p (a ++ b) <> None.
Proof.
  intros Hb a; induction a as [|c a IH]; intros p; cbn [append];
    rewrite search_from_unfold.
  - destruct (match_at r p b) eqn:E; [discriminate|].
    exfalso; exact (Hb p E).
  - destruct (match_at r p _); [discriminate | apply IH].
Qed.

(** No match anywhere means the search fails. *)
Lemma search_from_none (r : regex) (s : string) :
  (forall a b q, s = a ++ b -> match_at r q b = None) ->
  forall p, search_from r p s = None.
Proof.
  intros H p; destruct (search_from r p s) as [m|] eqn:E; [|reflexivity].
  destruct (search_from_inv _ _ _ _ E) as [a [b [q [Hs Hm]]]].
  rewrite (H a b q Hs) in Hm; discriminate.
Qed.

Lemma many1_inv (p : ascii -> bool) (s : string) :
  forall k c r k',
    In (c, r, k') (many1 p s k) ->
    exists t, t <> "" /\ s = t ++ r.
Proof.
  induction s as [|d s IH]; intros k c r k'; simpl; [tauto|].
  destruct (p d); [|simpl; tauto].
  intros H; apply in_app_or in H as [H|[H|[]]].
  - destruct (IH _ _ _ _ H) as [t [_ ->]].
    exists (String d t); split; [discriminate | reflexivity].
  - injection H as _ <- _; exists (String d ""); split;
      [discriminate | reflexivity].
Qed.

Lemma many1_reaches (p : ascii -> bool) (t r : string) :
  t <> "" ->
  (forall a b c, t = a ++ String c b -> p c = true) ->
  forall k, exists c k', In (c, r, k') (many1 p (t ++ r) k).
Proof.
  induction t as [|d t IH]; intros Hne Hp k; [contradiction|].
  simpl. rewrite (Hp "" t d eq_refl).
  destruct t as [|e t].
  - exists d, (S k); apply in_or_app; right; left; reflexivity.
  - destruct (IH ltac:(discriminate)
                 (fun a b c E => Hp (String d a) b c (f_equal (String d) E))
                 (S k)) as [c [k' H]].
    exists c, k'; apply in_or_app; left; exact H.
Qed.

Lemma eat_char_inv (c : ascii) (st m : mstate) :
  In m (eat (String c "") st) -> exists t, rest st = String c t.
Proof.
  cbn [eat]; destruct (rest st) as [|d t]; [intros []|].
  destruct (Ascii.eqb_spec c d) as [<-|]; [|intros []].
  intros _; exists t; reflexivity.
Qed.

Lemma match_at_in (r : regex) (q : option ascii) (b : string) (m : mstate) :
  match_at r q b = Some m -> In m (match_re r (start q b)).
Proof.
  unfold match_at; destruct (match_re r (start q b)); intros H;
    [discriminate | injection H as <-; left; reflexivity].
Qed.

Lemma in_match_at (r : regex) (q : option ascii) (b : string) (m : mstate) :
  In m (match_re r (start q b)) -> match_at r q b <> None.
Proof.
  unfold match_at; destruct (match_re r (start q b));
    [contradiction | discriminate].
Qed.

(** ** The inline-math pass *)

Lemma one_line_suffix (a b : string) :
  one_line (a ++ b) = true -> one_line b = true.
Proof.
  induction a as [|c a IH]; simpl; auto.
  destruct (Ascii.eqb c LF); auto.
  intros H; apply String.eqb_eq in H.
  destruct a; simpl in H; [subst; reflexivity | discriminate].
Qed.

Lemma one_line_prefix (a b : string) :
  one_line (a ++ b) = true -> b <> "" ->
  forall x y c, a = x ++ String c y -> not_newline c = true.
Proof.
  intros H Hb x y c ->.
  rewrite append_assoc in H; apply one_line_suffix in H; simpl in H.
  unfold not_newline; destruct (Ascii.eqb c LF); [|reflexivity].
  apply String.eqb_eq in H; destruct y; simpl in H;
    [contradiction | discriminate].
Qed.

(** The pattern matches at a position exactly when a dollar sign, some
    text and a second dollar sign start there. *)
Lemma inline_math_match_inv (q : option ascii) (b : string) (m : mstate) :
  match_at inline_math_re q b = Some m ->
  exists t c, t <> "" /\ b = "$" ++ t ++ "$" ++ c.
Proof.
  intros H; apply match_at_in in H.
  unfold inline_math_re in H; cbn [match_re] in H.
  apply in_flat_map in H as [st1 [H1 H]].
  apply in_flat_map in H as [st2 [H2 H]].
  apply in_map_iff in H2 as [[[c r] k] [<- H2]].
  apply eat_char_inv in H as [c' Hr]; cbn [rest] in Hr; subst r.
  apply many1_inv in H2 as [t [Hne Ht]].
  cbn [eat start rest] in H1; destruct b as [|d b]; [contradiction|].
  destruct (Ascii.eqb_spec "$" d) as [<-|]; [|contradiction].
  destruct H1 as [<-|[]]; cbn [rest] in Ht; subst b.
  exists t, c'; auto.
Qed.

Lemma inline_math_match (q : option ascii) (t c : string) :
  t <> "" ->
  (forall x y d, t = x ++ String d y -> not_newline d = true) ->
  match_at inline_math_re q ("$" ++ t ++ "$" ++ c) <> None.
Proof.
  intros Hne Hnl.
  destruct (many1_reaches not_newline t ("$" ++ c) Hne Hnl 1) as [d [k H]].
  apply in_match_at
    with (m := MState (Some "$"%char) c (S k) []).
  unfold inline_math_re; cbn [match_re].
  apply in_flat_map; eexists; split; [left; reflexivity|].
  apply in_flat_map; eexists; split.
  - apply in_map_iff; exists (d, "$" ++ c, k); split; [reflexivity|].
    exact H.
  - left; reflexivity.
Qed.

Lemma sloppy_line_spec (line : string) :
  one_line line = true ->
  (inline_math line -> sloppy_line line = "\sloppy " ++ line) /\
  (~ inline_math line -> sloppy_line line = line).
Proof.
  intros Hl; unfold sloppy_line, Re.search; split.
  - intros [a [t [b [Hne ->]]]].
    destruct (search_from inline_math_re None _) eqn:E; [reflexivity|].
    exfalso; revert E; apply search_from_found; intros q.
    apply inline_math_match; [assumption|].
    apply one_line_suffix in Hl.
    change (one_line (String "$" (t ++ "$" ++ b)) = true) in Hl.
    cbn [one_line] in Hl.
    change (Ascii.eqb "$" LF) with false in Hl.
    apply (one_line_prefix _ _ Hl); discriminate.
  - intros Hn.
    destruct (search_from inline_math_re None line) eqn:E; [|reflexivity].
    exfalso; apply Hn.
    apply search_from_inv in E as [a [b [q [-> Hm]]]].
    apply inline_math_match_inv in Hm as [t [c [Hne ->]]].
    exists a, t, c; auto.
Qed.

(** C7: in the inline-math pass over the lines of a file, a line holding
    text between a pair of dollar signs comes out prefixed with [\sloppy],
    and every other line comes out as it was. *)
Theorem sloppy_pass_prefixes_inline_math :
  forall (src : list string) (i : nat) (line : string),
    Forall (fun l => one_line l = true) src ->
    nth_error src i = Some line ->
    (inline_math line ->
     nth_error (map sloppy_line src) i = Some ("\sloppy " ++ line)) /\
    (~ inline_math line ->
     nth_error (map sloppy_line src) i = Some line).
Proof.
  intros src i line Hsrc Hi.
  assert (Hl : one_line line = true).
  { rewrite Forall_forall in Hsrc; apply Hsrc.
    eapply nth_error_In; eassumption. }
  destruct (sloppy_line_spec line Hl) as [H1 H2].
  split; intros H; rewrite nth_error_map, Hi; simpl;
    [rewrite (H1 H) | rewrite (H2 H)]; reflexivity.
Qed.

Lemma sloppy_pass_prefixes_inline_math_witness :
  nth_error
    (map sloppy_line ["Let $x+1$ be odd." ++ nl; "No formula here." ++ nl]) 0
  = Some ("\sloppy Let $x+1$ be odd." ++ nl).
Proof.
  apply (sloppy_pass_prefixes_inline_math
           ["Let $x+1$ be odd." ++ nl; "No formula here." ++ nl] 0
           ("Let $x+1$ be odd." ++ nl)).
  - repeat constructor.
  - reflexivity.
  - exists "Let ", "x+1", (" be odd." ++ nl); split;
      [discriminate | reflexivity].
Defined.

(** ** Lines the later passes leave alone *)

Lemma free_of_app (c : ascii) (a b : string) :
  free_of c (a ++ b) = free_of c a && free_of c b.
Proof.
  induction a as [|d a IH]; simpl; [reflexivity|].
  rewrite IH, andb_assoc; reflexivity.
Qed.

Lemma free_of_prefix (c : ascii) (l s : string) :
  free_of c s = true -> String.prefix (String c l) s = false.
Proof.
  destruct s as [|d s]; simpl; [reflexivity|].
  destruct (ascii_dec c d) as [->|]; [|reflexivity].
  rewrite Ascii.eqb_refl; discriminate.
Qed.

Lemma free_of_contains (c : ascii) (l s : string) :
  free_of c s = true -> contains (String c l) s = false.
Proof.
  induction s as [|d s IH]; intros H; [reflexivity|].
  cbn [contains]; rewrite (free_of_prefix c l _ H).
  simpl in H; apply andb_prop in H as [_ H]; rewrite (IH H); reflexivity.
Qed.

Lemma contains_app (p a b : string) :
  String.prefix p b = true -> contains p (a ++ b) = true.
Proof.
  intros H; induction a as [|c a IH]; cbn [append contains].
  - destruct b; cbn [contains]; rewrite H; reflexivity.
  - rewrite IH; apply orb_true_r.
Qed.

Lemma not_contains_app (p a b : string) :
  contains p (a ++ b) = false -> String.prefix p b = false.
Proof.
  intros H; destruct (String.prefix p b) eqn:E; [|reflexivity].
  rewrite (contains_app p a b E) in H; discriminate.
Qed.

(** A pattern that starts with a literal only matches where the literal
    starts. *)
Lemma eat_head_mismatch (c d : ascii) (l : string) (st : mstate) :
  String.prefix (String c (String d "")) (rest st) = false ->
  eat (String c (String d l)) st = [].
Proof.
  cbn [eat]; destruct (rest st) as [|c' t]; [reflexivity|].
  destruct (Ascii.eqb_spec c c') as [<-|]; [|reflexivity].
  cbn [rest]; destruct t as [|d' t]; [reflexivity|].
  destruct (Ascii.eqb_spec d d') as [<-|]; [|reflexivity].
  cbn [String.prefix].
  destruct (ascii_dec c c); [|congruence].
  destruct (ascii_dec d d); [|congruence].
  destruct t; discriminate.
Qed.

Lemma literal_head_match (c d : ascii) (l : string) (r : regex)
  (q : option ascii) (b : string) :
  String.prefix (String c (String d "")) b = false ->
  match_at (Str (String c (String d l)) >> r) q b = None.
Proof.
  intros H; unfold match_at; cbn [match_re].
  rewrite eat_head_mismatch; [reflexivity | exact H].
Qed.

Lemma literal_head_search (c d : ascii) (l : string) (r : regex) (s : string) :
  contains (String c (String d "")) s = false ->
  Re.search (Str (String c (String d l)) >> r) s = None.
Proof.
  intros H; apply search_from_none; intros a b q ->.
  apply literal_head_match, (not_contains_app _ a), H.
Qed.

Lemma prefix_longer (c d : ascii) (l s : string) :
  String.prefix (String c (String d "")) s = false ->
  String.prefix (String c (String d l)) s = false.
Proof.
  destruct s as [|e s]; [reflexivity|].
  cbn [String.prefix]; destruct (ascii_dec c e); [|reflexivity].
  destruct s as [|e' s]; [reflexivity|].
  cbn [String.prefix]; destruct (ascii_dec d e'); [|reflexivity].
  destruct s; discriminate.
Qed.

Lemma contains_longer (c d : ascii) (l s : string) :
  contains (String c (String d "")) s = false ->
  contains (String c (String d l)) s = false.
Proof.
  induction s as [|e s IH]; cbn [contains]; intros H;
    apply orb_false_elim in H as [H1 H2];
    rewrite (prefix_longer c d l _ H1); [reflexivity|].
  rewrite (IH H2); reflexivity.
Qed.

(** A line that does not hold [\i] is no figure line. *)
Lemma figure_line_other (float_half : string -> result string)
  (line : string) :
  contains "\i" line = false -> figure_line float_half line = ret line.
Proof.
  intros H; unfold figure_line, width_re, scale_re.
  rewrite (literal_head_search _ _ _ _ _ H).
  rewrite (contains_longer _ _ _ _ H).
  rewrite (literal_head_search _ _ _ _ _ H); reflexivity.
Qed.

Lemma sloppy_line_plain (line : string) :
  free_of "$" line = true -> sloppy_line line = line.
Proof.
  intros H; unfold sloppy_line.
  replace (Re.search inline_math_re line) with (@None mstate); [reflexivity|].
  symmetry; apply search_from_none; intros a b q ->.
  destruct (match_at inline_math_re q b) eqn:E; [|reflexivity].
  apply inline_math_match_inv in E as [t [c [_ ->]]].
  rewrite free_of_app in H; simpl in H.
  rewrite andb_false_r in H; discriminate.
Qed.

Lemma free_of_join (c : ascii) (geom_settings : list (string * string)) :
  Ascii.eqb c "=" = false -> Ascii.eqb c "," = false ->
  forallb (fun '(k, v) => free_of c k && free_of c v) geom_settings = true ->
  free_of c (join "," (map (fun '(k, v) => k ++ "=" ++ v) geom_settings))
  = true.
Proof.
  intros He Hc; unfold join.
  induction geom_settings as [|[k v] g IH]; [reflexivity|].
  cbn [forallb map]; intros H; apply andb_prop in H as [Hkv Hg].
  apply andb_prop in Hkv as [Hk Hv].
  assert (Hkv : free_of c (k ++ "=" ++ v) = true).
  { rewrite free_of_app; cbn [append free_of]; rewrite Hk, He, Hv.
    reflexivity. }
  destruct g as [|kv g]; [exact Hkv|].
  change (free_of c ((k ++ "=" ++ v) ++ "," ++
            String.concat "," (map (fun '(k, v) => k ++ "=" ++ v) (kv :: g)))
          = true).
  rewrite free_of_app, Hkv; cbn [append free_of]; rewrite Hc.
  apply IH, Hg.
Qed.

Lemma plain_settings_free (c : ascii) (geom_settings : list (string * string)) :
  c = "\"%char \/ c = "$"%char ->
  plain_settings geom_settings = true ->
  forallb (fun '(k, v) => free_of c k && free_of c v) geom_settings = true.
Proof.
  intros Hc; unfold plain_settings, plain.
  induction geom_settings as [|[k v] g IH]; [reflexivity|].
  cbn [forallb]; intros H; apply andb_prop in H as [Hkv Hg].
  rewrite (IH Hg), andb_true_r.
  apply andb_prop in Hkv as [Hk Hv].
  apply andb_prop in Hk as [Hk1 Hk2]; apply andb_prop in Hv as [Hv1 Hv2].
  destruct Hc as [-> | ->]; [rewrite Hk1, Hv1 | rewrite Hk2, Hv2];
    reflexivity.
Qed.

Lemma geometry_line_free (c : ascii) (geom_settings : list (string * string))
  (landscape : bool) :
  c = "\"%char \/ c = "$"%char ->
  plain_settings geom_settings = true ->
  free_of c
    (join "," (map (fun '(k, v) => k ++ "=" ++ v) geom_settings)
       ++ (if landscape then ",landscape" else "") ++ "]{geometry}" ++ nl)
  = true.
Proof.
  intros Hc Hp.
  rewrite free_of_app, free_of_join.
  - destruct Hc as [-> | ->]; destruct landscape; reflexivity.
  - destruct Hc as [-> | ->]; reflexivity.
  - destruct Hc as [-> | ->]; reflexivity.
  - apply plain_settings_free; assumption.
Qed.

(** Neither of the later passes touches an inserted line. *)
Lemma inserted_line_fixed (float_half : string -> result string)
  (geom_settings : list (string * string)) (landscape : bool) (line : string) :
  plain_settings geom_settings = true ->
  In line (inserted_lines geom_settings landscape) ->
  figure_line float_half line = ret line /\ sloppy_line line = line.
Proof.
  intros Hp Hin.
  assert (H : contains "\i" line = false /\ free_of "$" line = true).
  { unfold inserted_lines in Hin; apply in_app_or in Hin as [Hin|Hin].
    - destruct landscape; [|contradiction].
      destruct Hin as [<-|[]]; split; reflexivity.
    - destruct Hin as [<-|[<-|[<-|[<-|[]]]]]; try (split; reflexivity).
      unfold geometry_line; split.
      + cbn [append contains String.prefix]; cbn.
        apply free_of_contains, geometry_line_free; auto.
      + cbn [append free_of]; cbn.
        apply geometry_line_free; auto. }
  destruct H as [H1 H2]; split;
    [apply figure_line_other | apply sloppy_line_plain]; assumption.
Qed.

(** ** The insertion before the document body *)

Lemma indices_from_nil (f : string -> bool) (src : list string) :
  forall k, indices_from f k src = [] ->
  Forall (fun l => f l = false) src.
Proof.
  induction src as [|line t IH]; intros k; cbn [indices_from];
    [constructor|].
  destruct (f line) eqn:E; [discriminate|].
  intros H; constructor; [assumption | apply (IH _ H)].
Qed.

(** A single index splits the list around the one line that satisfies the
    test. *)
Lemma indices_from_single (f : string -> bool) (src : list string) :
  forall k i, indices_from f k src = [i] ->
  exists pre x post,
    src = (pre ++ x :: post)%list /\ i = k + List.length pre /\
    f x = true /\
    Forall (fun l => f l = false) pre /\ Forall (fun l => f l = false) post.
Proof.
  induction src as [|line t IH]; intros k i; cbn [indices_from];
    [discriminate|].
  destruct (f line) eqn:E; intros H.
  - injection H as <- H; apply indices_from_nil in H.
    exists [], line, t; repeat split; auto; simpl; lia.
  - destruct (IH _ _ H) as [pre [x [post [-> [-> [Hx [Hpre Hpost]]]]]]].
    exists (line :: pre), x, post; repeat split; auto; simpl; lia.
Qed.

Lemma list_insert_app {A} (pre rest_ : list A) (x : A) :
  list_insert (List.length pre) x (pre ++ rest_)%list
  = (pre ++ x :: rest_)%list.
Proof.
  unfold list_insert; induction pre as [|y pre IH]; simpl;
    [reflexivity | congruence].
Qed.

Lemma geometry_line_eq (geom_settings : list (string * string))
  (landscape : bool) :
  "\usepackage[" ++ geom_settings_str geom_settings landscape
    ++ "]{geometry}" ++ nl
  = geometry_line geom_settings landscape.
Proof.
  unfold geometry_line, geom_settings_str.
  rewrite append_assoc; reflexivity.
Qed.

Lemma insert_preamble_app (geom_settings : list (string * string))
  (landscape : bool) (pre rest_ : list string) :
  insert_preamble (List.length pre) geom_settings landscape (pre ++ rest_)%list
  = (pre ++ inserted_lines geom_settings landscape ++ rest_)%list.
Proof.
  unfold insert_preamble, inserted_lines; cbv zeta.
  rewrite geometry_line_eq, !list_insert_app.
  destruct landscape; reflexivity.
Qed.

Lemma mapM_app_inv {A B} (f : A -> result B) (a b : list A) (out : list B) :
  mapM f (a ++ b)%list = ret out ->
  exists a' b',
    mapM f a = ret a' /\ mapM f b = ret b' /\ out = (a' ++ b')%list.
Proof.
  revert out; induction a as [|x a IH]; intros out; cbn [app mapM].
  - intros H; exists [], out; auto.
  - destruct (f x) as [e|y]; cbn [bind]; [discriminate|].
    destruct (mapM f (a ++ b)%list) as [e|t] eqn:E; cbn [bind];
      [discriminate|].
    intros H; injection H as <-.
    destruct (IH t eq_refl) as [a' [b' [-> [Hb ->]]]].
    exists (y :: a'), b'; auto.
Qed.

Lemma mapM_fixed {A} (f : A -> result A) (l : list A) :
  (forall x, In x l -> f x = ret x) -> mapM f l = ret l.
Proof.
  induction l as [|x l IH]; intros H; cbn [mapM]; [reflexivity|].
  rewrite (H x (or_introl eq_refl)), IH; [reflexivity|].
  intros y Hy; apply H; right; exact Hy.
Qed.

Lemma map_fixed {A} (f : A -> A) (l : list A) :
  (forall x, In x l -> f x = x) -> map f l = l.
Proof.
  intros H; rewrite <- (map_id l) at 2; apply map_ext_in; exact H.
Qed.

Lemma later_passes_of (float_half : string -> result string)
  (src mid : list string) :
  mapM (figure_line float_half) src = ret mid ->
  later_passes float_half src = ret (map sloppy_line mid).
Proof. intros H; unfold later_passes; rewrite H; reflexivity. Qed.

(** C2, as stated, fails: on a landscape run the page-style directive is
    not the first inserted line and the landscape-page package is not the
    last; no stretch of the output before the document body reads in the
    order the specification gives. *)
Lemma inserted_order_not_as_specified :
  let src :=
    ["\documentclass{article}" ++ nl;
     "\begin{document}" ++ nl;
     "\end{document}" ++ nl] in
  let geom_settings :=
    [("paperwidth", "6in"); ("paperheight", "4in"); ("margin", "0.2in")] in
  change_size PyFloat.half_repr src geom_settings true
  = ret ["\documentclass{article}" ++ nl;
         "\usepackage{pdflscape}" ++ nl;
         "\usepackage{breqn}" ++ nl;
         "\pagestyle{empty}" ++ nl;
         "\usepackage{times}" ++ nl;
         "\usepackage[paperwidth=6in,paperheight=4in,margin=0.2in,landscape]{geometry}"
           ++ nl;
         "\begin{document}" ++ nl;
         "\end{document}" ++ nl] /\
  ~ exists pre body post,
      change_size PyFloat.half_repr src geom_settings true
      = ret (pre ++ inserted_lines_as_specified geom_settings true
               ++ body :: post)%list.
Proof.
  intros src geom_settings.
  assert (E : change_size PyFloat.half_repr src geom_settings true
              = ret ["\documentclass{article}" ++ nl;
                     "\usepackage{pdflscape}" ++ nl;
                     "\usepackage{breqn}" ++ nl;
                     "\pagestyle{empty}" ++ nl;
                     "\usepackage{times}" ++ nl;
                     "\usepackage[paperwidth=6in,paperheight=4in,margin=0.2in,landscape]{geometry}"
                       ++ nl;
                     "\begin{document}" ++ nl;
                     "\end{document}" ++ nl])
    by (vm_compute; reflexivity).
  split; [exact E|].
  intros [pre [body [post H]]]; rewrite E in H.
  injection H as H.
  repeat (destruct pre as [|? pre]; [discriminate H | injection H as _ H]).
  destruct pre; discriminate H.
Qed.

(** C2, amended: whenever the rewrite completes, the lines it inserted
    stand immediately before the one line that begins the document body,
    top to bottom: the landscape-page package (only when landscape is
    requested), the inline-math line-breaking package, the page-style
    directive, the serif-font package and the geometry package invocation
    with the comma-joined [key=value] settings and [,landscape] appended
    exactly when the flag is set.  The lines before the body, the inserted
    lines and the body with what follows each went through the two later
    passes, which leave the inserted lines as they are when the settings
    hold no backslash and no dollar sign. *)
Theorem change_size_inserts_before_body :
  forall float_half src geom_settings landscape out,
    change_size float_half src geom_settings landscape = ret out ->
    exists pre0 body0 post0 pre ins body post,
      (exists i kept_src,
         first_index (contains "\documentclass") src = ret i /\
         filterM keep_line src = ret kept_src /\
         strip_class_options i kept_src = ret (pre0 ++ body0 :: post0)%list) /\
      startswith "\begin{document}" body0 = true /\
      Forall (fun l => startswith "\begin{document}" l = false)
             (pre0 ++ post0)%list /\
      later_passes float_half pre0 = ret pre /\
      later_passes float_half (inserted_lines geom_settings landscape)
      = ret ins /\
      later_passes float_half (body0 :: post0) = ret (body :: post) /\
      out = (pre ++ ins ++ body :: post)%list /\
      (plain_settings geom_settings = true ->
       ins = inserted_lines geom_settings landscape).
Proof.
  intros float_half src geom_settings landscape out; unfold change_size.
  destruct (first_index _ src) as [e|i] eqn:Ei; cbn [bind]; [discriminate|].
  destruct (filterM keep_line src) as [e|kept_src] eqn:Ek; cbn [bind];
    [discriminate|].
  destruct (strip_class_options i kept_src) as [e|src2] eqn:Es; cbn [bind];
    [discriminate|].
  destruct (indices_from _ 0 src2) as [|begindoc [|? ?]] eqn:Eb;
    try discriminate.
  apply indices_from_single in Eb
    as [pre0 [body0 [post0 [-> [-> [Hbody [Hpre Hpost]]]]]]].
  cbn [Nat.add]; rewrite insert_preamble_app.
  destruct (mapM _ _) as [e|mid] eqn:Em; cbn [bind]; [discriminate|].
  intros H; injection H as <-.
  apply mapM_app_inv in Em as [pre1 [rest1 [Hp [Hr ->]]]].
  apply mapM_app_inv in Hr as [ins1 [tail1 [Hi [Ht ->]]]].
  destruct tail1 as [|body1 post1].
  { cbn [mapM] in Ht.
    destruct (figure_line float_half body0); cbn [bind] in Ht;
      [discriminate|].
    destruct (mapM _ post0); discriminate. }
  exists pre0, body0, post0, (map sloppy_line pre1), (map sloppy_line ins1),
    (sloppy_line body1), (map sloppy_line post1).
  repeat split.
  - exists i, kept_src; auto.
  - exact Hbody.
  - apply Forall_app; split; assumption.
  - apply later_passes_of; assumption.
  - apply later_passes_of; assumption.
  - apply (later_passes_of _ _ _ Ht).
  - rewrite !map_app; reflexivity.
  - intros Hplain.
    rewrite mapM_fixed in Hi.
    + injection Hi as <-; apply map_fixed; intros line Hl.
      apply (inserted_line_fixed float_half _ _ _ Hplain Hl).
    + intros line Hl.
      apply (inserted_line_fixed float_half _ _ _ Hplain Hl).
Qed.

Lemma change_size_inserts_before_body_witness :
  exists pre0 body0 post0 pre ins body post,
    (exists i kept_src,
       first_index (contains "\documentclass")
         ["\documentclass[12pt]{article}" ++ nl; "% layout" ++ nl;
          "\begin{document}" ++ nl; "Let $x$ be." ++ nl;
          "\end{document}" ++ nl] = ret i /\
       filterM keep_line
         ["\documentclass[12pt]{article}" ++ nl; "% layout" ++ nl;
          "\begin{document}" ++ nl; "Let $x$ be." ++ nl;
          "\end{document}" ++ nl] = ret kept_src /\
       strip_class_options i kept_src = ret (pre0 ++ body0 :: post0)%list) /\
    startswith "\begin{document}" body0 = true /\
    Forall (fun l => startswith "\begin{document}" l = false)
           (pre0 ++ post0)%list /\
    later_passes PyFloat.half_repr pre0 = ret pre /\
    later_passes PyFloat.half_repr
      (inserted_lines [("paperwidth", "4in"); ("paperheight", "6in");
                       ("margin", "0.2in")] false)
    = ret ins /\
    later_passes PyFloat.half_repr (body0 :: post0) = ret (body :: post) /\
    ["\documentclass[]{article}" ++ nl;
     "\usepackage{breqn}" ++ nl;
     "\pagestyle{empty}" ++ nl;
     "\usepackage{times}" ++ nl;
     "\usepackage[paperwidth=4in,paperheight=6in,margin=0.2in]{geometry}"
       ++ nl;
     "\begin{document}" ++ nl;
     "\sloppy Let $x$ be." ++ nl;
     "\end{document}" ++ nl] = (pre ++ ins ++ body :: post)%list /\
    (plain_settings [("paperwidth", "4in"); ("paperheight", "6in");
                     ("margin", "0.2in")] = true ->
     ins = inserted_lines [("paperwidth", "4in"); ("paperheight", "6in");
                           ("margin", "0.2in")] false).
Proof.
  apply (change_size_inserts_before_body PyFloat.half_repr
           ["\documentclass[12pt]{article}" ++ nl; "% layout" ++ nl;
            "\begin{document}" ++ nl; "Let $x$ be." ++ nl;
            "\end{document}" ++ nl]
           [("paperwidth", "4in"); ("paperheight", "6in"); ("margin", "0.2in")]
           false).
  vm_compute; reflexivity.
Defined.

(** ** The document-class line *)

Lemma list_get_app {A} (pre post : list A) (x : A) :
  list_get (List.length pre) (pre ++ x :: post)%list = ret x.
Proof.
  unfold list_get; rewrite nth_error_app2, Nat.sub_diag by lia; reflexivity.
Qed.

Lemma list_set_app {A} (pre post : list A) (x y : A) :
  list_set (List.length pre) y (pre ++ x :: post)%list
  = ret (pre ++ y :: post)%list.
Proof.
  induction pre as [|z pre IH]; cbn [List.length app list_set];
    [|rewrite IH]; reflexivity.
Qed.

Lemma sub_at_app (r : regex) (pre post : list string) (line : string) :
  sub_at r "" (List.length pre) (pre ++ line :: post)%list
  = ret (pre ++ sub_from r "" None 0 line :: post)%list.
Proof.
  unfold sub_at; rewrite list_get_app; cbn [bind ret].
  unfold Re.sub; cbn [expand bind ret]; apply list_set_app.
Qed.

(** The five statements amount to the five substitutions on the line at
    the index. *)
Lemma strip_class_options_app (pre post : list string) (line : string) :
  strip_class_options (List.length pre) (pre ++ line :: post)%list
  = ret (pre ++ strip_options_after None line :: post)%list.
Proof.
  unfold strip_class_options, strip_options_after.
  repeat (rewrite sub_at_app; cbn [bind ret]).
  reflexivity.
Qed.

(** The two option lists the specification works out: on a
    document-class line with options [12pt,twocolumn,a4paper]
    the removals and the comma clean-up leave [[]], and with
    [12pt,draft,a4paper] they leave [[draft]]; a single token removed in
    first, middle or last position leaves the other options and no stray
    comma.  What follows the closing bracket is rewritten on its own, and a
    class name such as [{article}] is left as it is. *)
Lemma class_options_stripped :
  forall (pre post : list string) (rest_ : string),
    let line := fun options : string => "\documentclass" ++ options ++ rest_ in
    let line' := fun options : string =>
      "\documentclass" ++ options
        ++ strip_options_after (Some "]"%char) rest_ in
    let run := fun options =>
      strip_class_options (List.length pre) (pre ++ line options :: post) in
    let expect := fun options => ret (pre ++ line' options :: post)%list in
    run "[12pt,twocolumn,a4paper]" = expect "[]" /\
    run "[12pt,draft,a4paper]" = expect "[draft]" /\
    run "[12pt,draft,final]" = expect "[draft,final]" /\
    run "[draft,12pt,final]" = expect "[draft,final]" /\
    run "[draft,final,12pt]" = expect "[draft,final]" /\
    strip_options_after (Some "]"%char) ("{article}" ++ nl)
    = "{article}" ++ nl.
Proof.
  intros pre post rest_ line line' run expect; subst line line' run expect.
  cbv beta; rewrite !strip_class_options_app.
  repeat split; reflexivity.
Qed.

(** ** Deviations of the code *)

(** C4 at a failing input: the comma clean-up removes one comma after the
    opening bracket and a comma before a closing bracket or another comma,
    and no more.  Two tokens removed at the front of the options leave
    [[,draft]], and a token removed after a comma and a blank leaves
    [[draft, ]]: a stray comma remains, in a file whose class line is the
    first line as for any text after the options. *)
Theorem class_options_leave_stray_comma :
  forall float_half : string -> result string,
    let geom_settings :=
      [("paperwidth", "4in"); ("paperheight", "6in"); ("margin", "0.2in")] in
    let geometry :=
      "\usepackage[paperwidth=4in,paperheight=6in,margin=0.2in]{geometry}"
        ++ nl in
    change_size float_half
      ["\documentclass[12pt,twocolumn,draft]{article}" ++ nl;
       "\begin{document}" ++ nl; "\end{document}" ++ nl]
      geom_settings false
    = ret ["\documentclass[,draft]{article}" ++ nl;
           "\usepackage{breqn}" ++ nl; "\pagestyle{empty}" ++ nl;
           "\usepackage{times}" ++ nl; geometry;
           "\begin{document}" ++ nl; "\end{document}" ++ nl] /\
    change_size float_half
      ["\documentclass[draft, 12pt]{article}" ++ nl;
       "\begin{document}" ++ nl; "\end{document}" ++ nl]
      geom_settings false
    = ret ["\documentclass[draft, ]{article}" ++ nl;
           "\usepackage{breqn}" ++ nl; "\pagestyle{empty}" ++ nl;
           "\usepackage{times}" ++ nl; geometry;
           "\begin{document}" ++ nl; "\end{document}" ++ nl] /\
    (forall rest_ : string,
       strip_options_after None
         ("\documentclass[12pt,twocolumn,draft]" ++ rest_)
       = "\documentclass[,draft]"
           ++ strip_options_after (Some "]"%char) rest_) /\
    (forall rest_ : string,
       strip_options_after None ("\documentclass[draft, 12pt]" ++ rest_)
       = "\documentclass[draft, ]"
           ++ strip_options_after (Some "]"%char) rest_).
Proof.
  intros float_half geom_settings geometry.
  split; [|split; [|split]].
  - vm_compute; reflexivity.
  - vm_compute; reflexivity.
  - intros rest_; reflexivity.
  - intros rest_; reflexivity.
Qed.

(** C1 at a failing input: with a comment line before the document-class
    line, the index taken before the filtering points one line too far;
    the font size stays in the class options, while the same pipeline
    without the filtering removes it.  With three comment lines the index
    falls outside the filtered list and the rewrite fails. *)
Theorem comment_filter_shifts_class_index :
  forall float_half : string -> result string,
    let geom_settings :=
      [("paperwidth", "4in"); ("paperheight", "6in"); ("margin", "0.2in")] in
    let geometry :=
      "\usepackage[paperwidth=4in,paperheight=6in,margin=0.2in]{geometry}"
        ++ nl in
    let src :=
      ["% arXiv preprint" ++ nl;
       "\documentclass[12pt]{article}" ++ nl;
       "\begin{document}" ++ nl;
       "\end{document}" ++ nl] in
    change_size float_half src geom_settings false
    = ret ["\documentclass[12pt]{article}" ++ nl;
           "\usepackage{breqn}" ++ nl; "\pagestyle{empty}" ++ nl;
           "\usepackage{times}" ++ nl; geometry;
           "\begin{document}" ++ nl; "\end{document}" ++ nl] /\
    change_size_unfiltered float_half src geom_settings false
    = ret ["% arXiv preprint" ++ nl;
           "\documentclass[]{article}" ++ nl;
           "\usepackage{breqn}" ++ nl; "\pagestyle{empty}" ++ nl;
           "\usepackage{times}" ++ nl; geometry;
           "\begin{document}" ++ nl; "\end{document}" ++ nl] /\
    filter kept
      ["% arXiv preprint" ++ nl;
       "\documentclass[]{article}" ++ nl;
       "\usepackage{breqn}" ++ nl; "\pagestyle{empty}" ++ nl;
       "\usepackage{times}" ++ nl; geometry;
       "\begin{document}" ++ nl; "\end{document}" ++ nl]
    <> ["\documentclass[12pt]{article}" ++ nl;
        "\usepackage{breqn}" ++ nl; "\pagestyle{empty}" ++ nl;
        "\usepackage{times}" ++ nl; geometry;
        "\begin{document}" ++ nl; "\end{document}" ++ nl] /\
    change_size float_half
      (("% typeset with pdflatex" ++ nl)%string
         :: ("% two columns" ++ nl)%string :: src) geom_settings false
    = raise IndexError.
Proof.
  intros float_half geom_settings geometry src.
  split; [|split; [|split]].
  - vm_compute; reflexivity.
  - vm_compute; reflexivity.
  - vm_compute; discriminate.
  - vm_compute; reflexivity.
Qed.

(** C3 at a failing input: the replacement template escapes the square
    brackets, which [re] keeps together with their backslashes; the
    rewritten line reads [\includegraphics\[scale=0.2\]{fig}], not
    [\includegraphics[scale=0.2]{fig}]. *)
Theorem scaled_figure_keeps_escaped_brackets :
  forall float_half : string -> result string,
    float_half "0.4" = ret "0.2" ->
    figure_line float_half ("\includegraphics[scale=0.4]{fig}" ++ nl)
    = ret ("\includegraphics\[scale=0.2\]{fig}" ++ nl) /\
    figure_line float_half ("\includegraphics[scale=0.4]{fig}" ++ nl)
    <> ret ("\includegraphics[scale=0.2]{fig}" ++ nl).
Proof.
  intros float_half H.
  assert (E : figure_line float_half ("\includegraphics[scale=0.4]{fig}" ++ nl)
              = ret ("\includegraphics\[scale=0.2\]{fig}" ++ nl)).
  { unfold figure_line.
    change (Re.search width_re _) with (@None mstate); cbv iota.
    change (contains "\includegraphics{" _) with false; cbv iota.
    change (Re.search scale_re ("\includegraphics[scale=0.4]{fig}" ++ nl))
      with (Some (MState (Some "]"%char) ("{fig}" ++ nl) 27 [(1, "0.4")])).
    cbv iota beta; change (group 1 _) with "0.4"; rewrite H; cbn [bind].
    vm_compute; reflexivity. }
  split; [exact E | rewrite E; discriminate].
Qed.

Lemma scaled_figure_keeps_escaped_brackets_witness :
  figure_line PyFloat.half_repr ("\includegraphics[scale=0.4]{fig}" ++ nl)
  = ret ("\includegraphics\[scale=0.2\]{fig}" ++ nl) /\
  figure_line PyFloat.half_repr ("\includegraphics[scale=0.4]{fig}" ++ nl)
  <> ret ("\includegraphics[scale=0.2]{fig}" ++ nl).
Proof.
  apply (scaled_figure_keeps_escaped_brackets PyFloat.half_repr).
  reflexivity.
Defined.

(** C5 at a failing input: the replacement is built once from the first
    figure of the line, so a second figure with another fraction is
    rewritten with the first one's; a line with a single figure comes out
    as specified. *)
Theorem width_figures_share_first_fraction :
  forall float_half : string -> result string,
    figure_line float_half
      ("\includegraphics[width=0.9\linewidth]{fig}" ++ nl)
    = ret ("\includegraphics[width=0.9\textwidth,height=0.9\textheight,keepaspectratio]{fig}"
             ++ nl) /\
    figure_line float_half
      ("\includegraphics[width=0.5\linewidth]{a}\includegraphics[width=0.3\textwidth]{b}"
         ++ nl)
    = ret ("\includegraphics[width=0.5\textwidth,height=0.5\textheight,keepaspectratio]{a}\includegraphics[width=0.5\textwidth,height=0.5\textheight,keepaspectratio]{b}"
             ++ nl).
Proof. intros float_half; split; vm_compute; reflexivity. Qed.

(** * Further properties of the code *)

(** ** Reading and writing lines *)

Lemma writelines_readlines (text : string) :
  writelines (readlines text) = text.
Proof.
  induction text as [|c t IH]; cbn [readlines]; [reflexivity|].
  destruct (Ascii.eqb c LF).
  - cbn [writelines append]; rewrite IH; reflexivity.
  - destruct (readlines t) as [|line lines]; cbn [writelines append] in *;
      rewrite <- IH; reflexivity.
Qed.

Lemma readlines_file_lines (text : string) : file_lines (readlines text).
Proof.
  induction text as [|c t IH]; cbn [readlines]; [exact I|].
  destruct (Ascii.eqb c LF) eqn:Ec.
  - apply Ascii.eqb_eq in Ec; subst c.
    destruct (readlines t) as [|line lines].
    + split; [discriminate | reflexivity].
    + split; [exists ""; split; reflexivity | exact IH].
  - destruct (readlines t) as [|line lines].
    + split; [discriminate|]. cbn [one_line]; rewrite Ec; reflexivity.
    + destruct lines as [|line2 lines].
      * destruct IH as [Hne Hl]; split; [discriminate|].
        cbn [one_line]; rewrite Ec; exact Hl.
      * destruct IH as [[body [-> Hb]] IH]; split; [|exact IH].
        exists (String c body); split; [reflexivity|].
        cbn [free_of]; rewrite Ascii.eqb_sym, Ec, Hb; reflexivity.
Qed.

Lemma readlines_one_line (line : string) :
  line <> "" -> one_line line = true -> readlines line = [line].
Proof.
  induction line as [|c t IH]; [contradiction|]; intros _.
  cbn [one_line readlines]; destruct (Ascii.eqb c LF).
  - intros H; apply String.eqb_eq in H; subst t; reflexivity.
  - intros H; destruct t as [|d t]; [reflexivity|].
    rewrite IH; [reflexivity | discriminate | exact H].
Qed.

Lemma readlines_terminated (body rest_ : string) :
  free_of LF body = true ->
  readlines ((body ++ nl) ++ rest_) = (body ++ nl) :: readlines rest_.
Proof.
  induction body as [|c b IH]; intros H; [reflexivity|].
  cbn [free_of] in H; apply andb_prop in H as [Hc Hb].
  cbn [append readlines].
  rewrite Ascii.eqb_sym; apply negb_true_iff in Hc; rewrite Hc.
  rewrite (IH Hb); reflexivity.
Qed.

Lemma readlines_writelines (lines : list string) :
  file_lines lines -> readlines (writelines lines) = lines.
Proof.
  induction lines as [|line t IH]; [reflexivity|].
  destruct t as [|line2 t].
  - intros [Hne Hl]; cbn [writelines]; rewrite append_empty_r.
    apply readlines_one_line; assumption.
  - intros [[body [-> Hb]] Ht].
    change (writelines ((body ++ nl) :: line2 :: t))
      with ((body ++ nl) ++ writelines (line2 :: t)).
    rewrite readlines_terminated, (IH Ht) by assumption; reflexivity.
Qed.

Lemma file_lines_nonempty (lines : list string) :
  file_lines lines -> Forall (fun line => line <> "") lines.
Proof.
  induction lines as [|line t IH]; [constructor|].
  destruct t as [|line2 t].
  - intros [Hne _]; repeat constructor; exact Hne.
  - intros [[body [-> _]] Ht]; constructor; [|exact (IH Ht)].
    destruct body; discriminate.
Qed.

Lemma file_lines_filter (f : string -> bool) (lines : list string) :
  file_lines lines -> file_lines (filter f lines).
Proof.
  induction lines as [|line t IH]; [trivial|].
  intros H.
  assert (Ht : file_lines t).
  { destruct t; [exact I | exact (proj2 H)]. }
  specialize (IH Ht); cbn [filter]; destruct (f line); [|exact IH].
  destruct (filter f t) as [|k ks] eqn:Ek.
  - destruct t as [|line2 t]; [exact H|].
    destruct H as [[body [-> Hb]] _]; split.
    + destruct body; discriminate.
    + clear -Hb; induction body as [|c b IHb]; [reflexivity|].
      cbn [free_of] in Hb; apply andb_prop in Hb as [Hc Hb].
      apply negb_true_iff in Hc; rewrite Ascii.eqb_sym in Hc.
      cbn [append one_line]; rewrite Hc; exact (IHb Hb).
  - destruct t as [|line2 t]; [discriminate Ek|].
    split; [exact (proj1 H) | exact IH].
Qed.

(** Writing back the lines read from a text gives the text, and the lines
    read are well formed: none is empty, a line feed only ends a line, and
    only the last line may lack it. *)
Theorem readlines_then_writelines :
  forall text : string,
    writelines (readlines text) = text /\ file_lines (readlines text).
Proof.
  intros text; split;
    [apply writelines_readlines | apply readlines_file_lines].
Qed.

(** Reading back well-formed lines that were written gives the same
    lines. *)
Theorem writelines_then_readlines :
  forall lines : list string,
    file_lines lines -> readlines (writelines lines) = lines.
Proof. exact readlines_writelines. Qed.

Lemma writelines_then_readlines_witness :
  readlines (writelines ["\twocolumn" ++ nl; nl; "\endinput"])
  = ["\twocolumn" ++ nl; nl; "\endinput"].
Proof.
  apply (writelines_then_readlines ["\twocolumn" ++ nl; nl; "\endinput"]).
  repeat split; try discriminate.
  - exists "\twocolumn"; split; reflexivity.
  - exists ""; split; reflexivity.
Defined.

(** ** The comment filter *)

Lemma lstrip_all_space (s : string) : all_space s = true -> lstrip s = "".
Proof.
  induction s as [|c t IH]; cbn [all_space lstrip]; [reflexivity|].
  intros H; apply andb_prop in H as [Hc Ht]; rewrite Hc; exact (IH Ht).
Qed.

Lemma lstrip_head (s : string) :
  all_space s = false ->
  exists c t, lstrip s = String c t /\ is_space c = false.
Proof.
  induction s as [|c t IH]; cbn [all_space lstrip]; [discriminate|].
  destruct (is_space c) eqn:Ec; [exact IH|].
  intros _; exists c, t; auto.
Qed.

Lemma rstrip_head (c : ascii) (t : string) :
  is_space c = false -> rstrip (String c t) <> "".
Proof.
  intros Hc; cbn [rstrip]; destruct (rstrip t); [rewrite Hc|]; discriminate.
Qed.

Lemma strip_blank (line : string) :
  (0 <? String.length (strip line))%nat = negb (all_space line).
Proof.
  unfold strip; destruct (all_space line) eqn:E.
  - rewrite lstrip_all_space by assumption; reflexivity.
  - destruct (lstrip_head _ E) as [c [t [-> Hc]]].
    pose proof (rstrip_head c t Hc) as H.
    destruct (rstrip (String c t)); [contradiction | reflexivity].
Qed.

Lemma keep_line_nonempty (line : string) :
  line <> "" ->
  keep_line line = ret (negb (startswith "%" line) && negb (all_space line)).
Proof.
  destruct line as [|c t]; [contradiction|]; intros _.
  unfold keep_line; rewrite strip_blank; f_equal; f_equal.
  unfold startswith; cbn [String.prefix].
  destruct (Ascii.eqb_spec c "%") as [->|Hc].
  - destruct t; reflexivity.
  - destruct (ascii_dec "%" c) as [<-|]; [contradiction | reflexivity].
Qed.

Lemma filterM_keep_line (lines : list string) :
  Forall (fun line => line <> "") lines ->
  filterM keep_line lines
  = ret (filter (fun line => negb (startswith "%" line)
                             && negb (all_space line)) lines).
Proof.
  induction 1 as [|line t Hne _ IH]; cbn [filterM filter]; [reflexivity|].
  rewrite (keep_line_nonempty _ Hne), IH; cbn [bind ret].
  destruct (negb (startswith "%" line) && negb (all_space line));
    reflexivity.
Qed.

Lemma filterM_keep_line_inv (src kept_src : list string) :
  filterM keep_line src = ret kept_src -> kept_src = filter kept src.
Proof.
  revert kept_src; induction src as [|line t IH]; intros kept_src;
    cbn [filterM filter].
  - intros H; injection H as <-; reflexivity.
  - unfold kept at 1.
    destruct (keep_line line) as [e|b]; cbn [bind]; [discriminate|].
    destruct (filterM keep_line t) as [e|t']; cbn [bind]; [discriminate|].
    intros H; injection H as <-; rewrite (IH t' eq_refl); reflexivity.
Qed.

Lemma all_space_app (a b : string) :
  all_space (a ++ b) = all_space a && all_space b.
Proof.
  induction a as [|c a IH]; cbn [append all_space]; [reflexivity|].
  rewrite IH, andb_assoc; reflexivity.
Qed.

(** On the lines of a file the comprehension never raises; it keeps
    exactly the lines that neither start with the comment marker nor
    consist of blanks only, in order.  The marker is looked for in the
    first character only: a comment after leading blanks is kept. *)
Theorem comment_filter_on_file :
  (forall text : string,
     filterM keep_line (readlines text)
     = ret (filter (fun line => negb (startswith "%" line)
                                && negb (all_space line))
                   (readlines text))) /\
  (forall blanks comment : string,
     blanks <> "" -> all_space blanks = true ->
     keep_line (blanks ++ "%" ++ comment) = ret true).
Proof.
  split.
  - intros text.
    apply filterM_keep_line, file_lines_nonempty, readlines_file_lines.
  - intros blanks comment Hne Hb.
    rewrite keep_line_nonempty by (destruct blanks; [contradiction|discriminate]).
    rewrite all_space_app; cbn [append all_space is_space].
    replace (all_space blanks && _) with false
      by (rewrite Hb; reflexivity).
    destruct blanks as [|c blanks]; [contradiction|].
    cbn [all_space] in Hb; apply andb_prop in Hb as [Hc _].
    unfold startswith; cbn [append String.prefix].
    destruct (ascii_dec "%" c) as [<-|]; [discriminate Hc | reflexivity].
Qed.

Lemma comment_filter_on_file_witness :
  keep_line ("  " ++ "%" ++ " a note" ++ nl) = ret true.
Proof.
  apply (proj2 comment_filter_on_file "  " (" a note" ++ nl));
    [discriminate | reflexivity].
Defined.

(** ** Finding the main file *)

Lemma filter_single {A} (f : A -> bool) (l : list A) (x : A) :
  filter f l = [x] ->
  exists pre post,
    l = (pre ++ x :: post)%list /\ f x = true /\
    Forall (fun y => f y = false) pre /\ Forall (fun y => f y = false) post.
Proof.
  induction l as [|y l IH]; cbn [filter]; [discriminate|].
  destruct (f y) eqn:E; intros H.
  - injection H as -> H; exists [], l; repeat split; auto.
    clear -H; induction l as [|z l IH]; [constructor|].
    cbn [filter] in H; destruct (f z) eqn:Ez; [discriminate|].
    constructor; auto.
  - destruct (IH H) as [pre [post [-> [Hx [Hpre Hpost]]]]].
    exists (y :: pre), post; repeat split; auto.
Qed.

(** When [download] returns, the query had a single record, whose title
    is returned; the directory is the extracted one; and the main file is
    the only file of the directory whose name ends in [.tex] and whose
    text holds the document-class marker. *)
Theorem download_returns_the_only_main_file :
  forall records archive work_dir file_name text arxiv_title,
    Fetcher.download records archive
    = ret (work_dir, (file_name, text), arxiv_title) ->
    exists paper pre post,
      records = [paper] /\ arxiv_title = Fetcher.title paper /\
      archive = Some work_dir /\
      work_dir = (pre ++ (file_name, text) :: post)%list /\
      endswith ".tex" file_name = true /\
      contains "\documentclass" text = true /\
      Forall (fun '(n, t) =>
                endswith ".tex" n && contains "\documentclass" t = false)
             (pre ++ post)%list.
Proof.
  intros records archive work_dir file_name text arxiv_title.
  unfold Fetcher.download.
  destruct records as [|paper [|? ?]]; try discriminate.
  cbn [Fetcher.lookup Fetcher.unpack1 Fetcher.except_ValueError ret bind].
  change (Fetcher.lookup [paper]) with (ret paper); cbn [bind ret].
  destruct archive as [files|]; [|discriminate].
  destruct (Fetcher.main_files files) as [|m [|? ?]] eqn:E;
    try discriminate.
  intros H; injection H as -> -> <-.
  apply filter_single in E as [pre [post [-> [Hm [Hpre Hpost]]]]].
  apply andb_prop in Hm as [Hn Ht].
  unfold Fetcher.is_main_file in Ht.
  destruct (contains "\documentclass" text) eqn:Ec; [|discriminate].
  exists paper, pre, post; repeat split; auto.
  apply Forall_app; split; [clear -Hpre | clear -Hpost];
    (eapply Forall_impl; [|eassumption]); intros [n t];
    unfold Fetcher.is_main_file;
    destruct (contains "\documentclass" t); auto.
Qed.

Lemma download_returns_the_only_main_file_witness :
  exists paper pre post,
    [Fetcher.Paper "1802.08395" "A Paper"] = [paper] /\
    "A Paper" = Fetcher.title paper /\
    Some [("main.tex", "\documentclass{article}"); ("fig.tex", "\draw")]
    = Some [("main.tex", "\documentclass{article}"); ("fig.tex", "\draw")] /\
    [("main.tex", "\documentclass{article}"); ("fig.tex", "\draw")]
    = (pre ++ ("main.tex", "\documentclass{article}") :: post)%list /\
    endswith ".tex" "main.tex" = true /\
    contains "\documentclass" "\documentclass{article}" = true /\
    Forall (fun '(n, t) =>
              endswith ".tex" n && contains "\documentclass" t = false)
           (pre ++ post)%list.
Proof.
  apply (download_returns_the_only_main_file
           [Fetcher.Paper "1802.08395" "A Paper"]
           (Some [("main.tex", "\documentclass{article}");
                  ("fig.tex", "\draw")])).
  reflexivity.
Defined.

(** The failures of [download], in order: a query without exactly one
    record is reported as paper not found whatever was downloaded; then a
    missing archive is reported as sources not available; then any number
    of main files other than one fails the assertion. *)
Theorem download_failures :
  forall records archive,
    (List.length records <> 1 ->
     Fetcher.download records archive
     = raise (SystemError "Paper not found")) /\
    (List.length records = 1 -> archive = None ->
     Fetcher.download records archive
     = raise (SystemError "Paper sources are not available")) /\
    (forall files,
       List.length records = 1 -> archive = Some files ->
       List.length (Fetcher.main_files files) <> 1 ->
       Fetcher.download records archive = raise AssertionError).
Proof.
  intros records archive; unfold Fetcher.download.
  destruct records as [|paper [|? ?]]; cbn [List.length];
    repeat split; intros; try lia; try reflexivity; subst archive.
  - reflexivity.
  - change (Fetcher.lookup [paper]) with (ret paper); cbn [bind ret].
    destruct (Fetcher.main_files files) as [|m [|? ?]];
      cbn [List.length] in *; try reflexivity; lia.
Qed.

Lemma download_failures_witness :
  Fetcher.download [] None = raise (SystemError "Paper not found") /\
  Fetcher.download [Fetcher.Paper "1802.08395" "A Paper"] None
  = raise (SystemError "Paper sources are not available") /\
  Fetcher.download [Fetcher.Paper "1802.08395" "A Paper"]
    (Some [("a.tex", "\documentclass{article}");
           ("b.tex", "\documentclass{book}")])
  = raise AssertionError.
Proof.
  split; [|split].
  - apply (proj1 (download_failures [] None)); cbn; lia.
  - apply (proj1 (proj2 (download_failures
                           [Fetcher.Paper "1802.08395" "A Paper"] None)));
      reflexivity.
  - apply (proj2 (proj2 (download_failures
                           [Fetcher.Paper "1802.08395" "A Paper"]
                           (Some [("a.tex", "\documentclass{article}");
                                  ("b.tex", "\documentclass{book}")])))
             [("a.tex", "\documentclass{article}");
              ("b.tex", "\documentclass{book}")]);
      [reflexivity | reflexivity | cbn; lia].
Defined.

(** ** From the main file to the document-class line *)

Lemma prefix_app_self (p b : string) : String.prefix p (p ++ b) = true.
Proof.
  induction p as [|c p IH]; cbn [append String.prefix].
  - destruct b; reflexivity.
  - destruct (ascii_dec c c); [exact IH | congruence].
Qed.

Lemma prefix_inv (p s : string) :
  String.prefix p s = true -> exists b, s = p ++ b.
Proof.
  revert s; induction p as [|c p IH]; intros s H.
  - exists s; reflexivity.
  - destruct s as [|d s]; [discriminate|].
    cbn [String.prefix] in H.
    destruct (ascii_dec c d) as [<-|]; [|discriminate].
    destruct (IH _ H) as [b ->]; exists b; reflexivity.
Qed.

Lemma contains_inv (p s : string) :
  contains p s = true -> exists a b, s = a ++ p ++ b.
Proof.
  induction s as [|c s IH]; cbn [contains]; intros H;
    apply orb_prop in H as [H|H]; try discriminate.
  - apply prefix_inv in H as [b ->]; exists "", b; reflexivity.
  - apply prefix_inv in H as [b ->]; exists "", b; reflexivity.
  - destruct (IH H) as [a [b ->]]; exists (String c a), b; reflexivity.
Qed.

Lemma contains_intro (p a b : string) : contains p (a ++ p ++ b) = true.
Proof. apply contains_app, prefix_app_self. Qed.

Lemma readlines_head (p b : string) :
  p <> "" -> free_of LF p = true ->
  exists l ls, readlines (p ++ b) = (p ++ l) :: ls.
Proof.
  induction p as [|c p IH]; [contradiction|]; intros _ H.
  cbn [free_of] in H; apply andb_prop in H as [Hc Hp].
  apply negb_true_iff in Hc; rewrite Ascii.eqb_sym in Hc.
  cbn [append readlines]; rewrite Hc.
  destruct p as [|d p].
  - cbn [append]; destruct (readlines b) as [|line lines].
    + exists "", []; reflexivity.
    + exists line, lines; reflexivity.
  - destruct (IH ltac:(discriminate) Hp) as [l [ls ->]].
    exists l, ls; reflexivity.
Qed.

(** A text holds a marker without line feed exactly when one of its lines
    does. *)
Lemma contains_readlines (p text : string) :
  p <> "" -> free_of LF p = true ->
  existsb (contains p) (readlines text) = contains p text.
Proof.
  intros Hne Hp.
  destruct (contains p text) eqn:E.
  - induction text as [|c t IH].
    + destruct p; [contradiction | discriminate E].
    + cbn [contains] in E; apply orb_prop in E as [E|E].
      * apply prefix_inv in E as [b ->].
        destruct (readlines_head p b Hne Hp) as [l [ls ->]].
        cbn [existsb]; rewrite <- (append_empty_r l) at 1.
        change (p ++ l ++ "") with ("" ++ p ++ l ++ "").
        rewrite contains_intro; reflexivity.
      * specialize (IH E); cbn [readlines].
        destruct (Ascii.eqb c LF); [cbn [existsb]; rewrite IH;
                                    apply orb_true_r|].
        destruct (readlines t) as [|line lines]; [discriminate IH|].
        cbn [existsb contains] in IH |- *.
        apply orb_prop in IH as [IH|IH]; rewrite IH;
          rewrite ?orb_true_r; reflexivity.
  - destruct (existsb (contains p) (readlines text)) eqn:Ex; [|reflexivity].
    apply existsb_exists in Ex as [line [Hin Hc]].
    apply contains_inv in Hc as [a [b ->]].
    apply in_split in Hin as [l1 [l2 Hl]].
    rewrite <- (writelines_readlines text), Hl in E.
    assert (Hw : forall l1 x l2,
               writelines (l1 ++ x :: l2)%list
               = writelines l1 ++ x ++ writelines l2).
    { clear; induction l1 as [|y l1 IH]; intros x l2; cbn [app writelines];
        [reflexivity|].
      rewrite IH, append_assoc; reflexivity. }
    rewrite Hw, !append_assoc, <- append_assoc, contains_intro in E.
    discriminate.
Qed.

Lemma first_index_found (f : string -> bool) (src : list string) :
  existsb f src = true ->
  exists pre line post,
    src = (pre ++ line :: post)%list /\ f line = true /\
    Forall (fun l => f l = false) pre /\
    first_index f src = ret (List.length pre).
Proof.
  induction src as [|x t IH]; cbn [existsb first_index]; [discriminate|].
  destruct (f x) eqn:E.
  - intros _; exists [], x, t; repeat split; auto.
  - cbn [orb]; intros H.
    destruct (IH H) as [pre [line [post [-> [Hl [Hpre ->]]]]]].
    exists (x :: pre), line, post; repeat split; auto.
Qed.

Lemma first_index_missing (f : string -> bool) (src : list string) :
  existsb f src = false -> first_index f src = raise StopIteration.
Proof.
  induction src as [|x t IH]; cbn [existsb first_index]; [reflexivity|].
  destruct (f x); [discriminate|]; cbn [orb]; intros H.
  rewrite (IH H); reflexivity.
Qed.

(** The test by which [download] chooses the main file and the search by
    which [change_size] locates the document-class line agree: on a text
    that [is_main_file] accepts the search finds the first line holding the
    marker, and on any other text [change_size] stops with
    [StopIteration]. *)
Theorem main_file_has_class_line :
  forall text : string,
    (Fetcher.is_main_file text = true ->
     exists pre line post,
       readlines text = (pre ++ line :: post)%list /\
       contains "\documentclass" line = true /\
       Forall (fun l => contains "\documentclass" l = false) pre /\
       first_index (contains "\documentclass") (readlines text)
       = ret (List.length pre)) /\
    (Fetcher.is_main_file text = false ->
     forall float_half geom_settings landscape,
       change_size_text float_half text geom_settings landscape
       = raise StopIteration).
Proof.
  intros text; unfold Fetcher.is_main_file.
  rewrite <- (contains_readlines "\documentclass" text)
    by (discriminate || reflexivity).
  destruct (existsb _ (readlines text)) eqn:E; split; try discriminate.
  - intros _; apply first_index_found; exact E.
  - intros _ float_half geom_settings landscape.
    unfold change_size_text, change_size.
    rewrite (first_index_missing _ _ E); reflexivity.
Qed.

Lemma main_file_has_class_line_witness :
  (exists pre line post,
     readlines ("% a" ++ nl ++ "\documentclass{article}" ++ nl)
     = (pre ++ line :: post)%list /\
     contains "\documentclass" line = true /\
     Forall (fun l => contains "\documentclass" l = false) pre /\
     first_index (contains "\documentclass")
       (readlines ("% a" ++ nl ++ "\documentclass{article}" ++ nl))
     = ret (List.length pre)) /\
  change_size_text PyFloat.half_repr ("\begin{document}" ++ nl) [] false
  = raise StopIteration.
Proof.
  split.
  - apply (proj1 (main_file_has_class_line
                    ("% a" ++ nl ++ "\documentclass{article}" ++ nl)));
      reflexivity.
  - apply (proj2 (main_file_has_class_line ("\begin{document}" ++ nl)));
      reflexivity.
Defined.

(** ** The shape of the output *)

Lemma list_set_length {A} (l l' : list A) (i : nat) (x : A) :
  list_set i x l = ret l' -> List.length l' = List.length l.
Proof.
  revert i l'; induction l as [|y l IH]; intros i l'.
  { destruct i; cbn [list_set]; unfold raise, ret; discriminate. }
  destruct i as [|j]; cbn [list_set].
  - intros H; injection H as <-; reflexivity.
  - destruct (list_set j x l) as [e|t] eqn:E; cbn [bind]; [discriminate|].
    intros H; injection H as <-; cbn [List.length]; rewrite (IH _ _ E).
    reflexivity.
Qed.

Lemma sub_at_length (r : regex) (template : string) (i : nat)
  (src src' : list string) :
  sub_at r template i src = ret src' -> List.length src' = List.length src.
Proof.
  unfold sub_at.
  destruct (list_get i src) as [e|line]; cbn [bind]; [discriminate|].
  destruct (Re.sub r template line) as [e|line']; cbn [bind]; [discriminate|].
  apply list_set_length.
Qed.

Lemma strip_class_options_length (i : nat) (src src' : list string) :
  strip_class_options i src = ret src' ->
  List.length src' = List.length src.
Proof.
  unfold strip_class_options.
  destruct (sub_at font_size_re "" i src) as [e|s1] eqn:E1; cbn [bind];
    [discriminate|].
  destruct (sub_at column_re "" i s1) as [e|s2] eqn:E2; cbn [bind];
    [discriminate|].
  destruct (sub_at paper_re "" i s2) as [e|s3] eqn:E3; cbn [bind];
    [discriminate|].
  destruct (sub_at leading_comma_re "" i s3) as [e|s4] eqn:E4; cbn [bind];
    [discriminate|].
  intros E5.
  apply sub_at_length in E1, E2, E3, E4, E5; congruence.
Qed.

Lemma mapM_length {A B} (f : A -> result B) (l : list A) (l' : list B) :
  mapM f l = ret l' -> List.length l' = List.length l.
Proof.
  revert l'; induction l as [|x l IH]; intros l'; cbn [mapM].
  - intros H; injection H as <-; reflexivity.
  - destruct (f x); cbn [bind]; [discriminate|].
    destruct (mapM f l) as [e|t]; cbn [bind]; [discriminate|].
    intros H; injection H as <-; cbn [List.length]; rewrite (IH t eq_refl).
    reflexivity.
Qed.

Lemma list_insert_length {A} (i : nat) (x : A) (l : list A) :
  List.length (list_insert i x l) = S (List.length l).
Proof.
  unfold list_insert.
  rewrite length_app; cbn [List.length].
  rewrite <- (firstn_skipn i l) at 3; rewrite length_app; lia.
Qed.

Lemma insert_preamble_length (i : nat) (geom_settings : list (string * string))
  (landscape : bool) (src : list string) :
  List.length (insert_preamble i geom_settings landscape src)
  = List.length src + (if landscape then 5 else 4).
Proof.
  unfold insert_preamble; cbv zeta.
  destruct landscape; rewrite !list_insert_length; lia.
Qed.

(** A completed rewrite writes the lines the filter keeps plus the
    inserted ones: four more lines in portrait, five in landscape.  No
    other line is added or lost. *)
Theorem change_size_line_count :
  forall float_half src geom_settings landscape out,
    change_size float_half src geom_settings landscape = ret out ->
    List.length out
    = List.length (filter kept src) + (if landscape then 5 else 4).
Proof.
  intros float_half src geom_settings landscape out; unfold change_size.
  destruct (first_index _ src) as [e|i]; cbn [bind]; [discriminate|].
  destruct (filterM keep_line src) as [e|kept_src] eqn:Ek; cbn [bind];
    [discriminate|].
  apply filterM_keep_line_inv in Ek; subst kept_src.
  destruct (strip_class_options i _) as [e|src2] eqn:Es; cbn [bind];
    [discriminate|].
  apply strip_class_options_length in Es.
  destruct (indices_from _ 0 src2) as [|begindoc [|? ?]]; try discriminate.
  destruct (mapM _ _) as [e|mid] eqn:Em; cbn [bind]; [discriminate|].
  apply mapM_length in Em; rewrite insert_preamble_length in Em.
  intros H; injection H as <-; rewrite length_map; congruence.
Qed.

Lemma change_size_line_count_witness :
  List.length
    ["\documentclass[]{article}" ++ nl; "\usepackage{breqn}" ++ nl;
     "\pagestyle{empty}" ++ nl; "\usepackage{times}" ++ nl;
     "\usepackage[margin=0.2in]{geometry}" ++ nl;
     "\begin{document}" ++ nl; "\end{document}" ++ nl]
  = List.length
      (filter kept
         ["\documentclass[12pt]{article}" ++ nl; nl;
          "\begin{document}" ++ nl; "% end" ++ nl; "\end{document}" ++ nl])
    + 4.
Proof.
  apply (change_size_line_count PyFloat.half_repr
           ["\documentclass[12pt]{article}" ++ nl; nl;
            "\begin{document}" ++ nl; "% end" ++ nl; "\end{document}" ++ nl]
           [("margin", "0.2in")] false).
  vm_compute; reflexivity.
Defined.

(** ** When the class line is the edited one *)

Lemma filter_all {A} (f : A -> bool) (l : list A) :
  forallb f l = true -> filter f l = l.
Proof.
  induction l as [|x l IH]; cbn [forallb filter]; [reflexivity|].
  intros H; apply andb_prop in H as [Hx Hl]; rewrite Hx, (IH Hl).
  reflexivity.
Qed.

Lemma first_index_app (f : string -> bool) (pre post : list string)
  (line : string) :
  Forall (fun l => f l = false) pre -> f line = true ->
  first_index f (pre ++ line :: post)%list = ret (List.length pre).
Proof.
  induction 1 as [|x pre Hx _ IH]; intros Hl; cbn [app first_index].
  - rewrite Hl; reflexivity.
  - rewrite Hx, (IH Hl); reflexivity.
Qed.

Lemma kept_filter (lines : list string) :
  Forall (fun line => line <> "") lines ->
  filterM keep_line lines = ret (filter kept lines).
Proof.
  induction 1 as [|line t Hne _ IH]; cbn [filterM filter]; [reflexivity|].
  unfold kept at 1; destruct line as [|c s]; [contradiction|].
  cbn [keep_line bind ret]; rewrite IH; reflexivity.
Qed.

(** When no comment or blank line stands before the document-class line,
    and that line is itself kept, the five substitutions are applied to
    it: the filter then leaves the index of the line unchanged. *)
Theorem class_line_edited_when_nothing_dropped_before :
  forall (pre post : list string) (line : string),
    Forall (fun l => l <> "") (pre ++ line :: post)%list ->
    Forall (fun l => contains "\documentclass" l = false) pre ->
    contains "\documentclass" line = true ->
    forallb kept pre = true -> kept line = true ->
    first_index (contains "\documentclass") (pre ++ line :: post)%list
    = ret (List.length pre) /\
    (kept_src <- filterM keep_line (pre ++ line :: post)%list ;;
     strip_class_options (List.length pre) kept_src)
    = ret (pre ++ strip_options_after None line :: filter kept post)%list.
Proof.
  intros pre post line Hne Hpre Hline Hk Hkl; split.
  - apply first_index_app; assumption.
  - rewrite (kept_filter _ Hne); cbn [bind ret].
    rewrite filter_app, (filter_all _ _ Hk); cbn [filter]; rewrite Hkl.
    apply strip_class_options_app.
Qed.

Lemma class_line_edited_when_nothing_dropped_before_witness :
  first_index (contains "\documentclass")
    ([("\newcommand{\x}{y}" ++ nl)%string]
       ++ ("\documentclass[12pt]{article}" ++ nl)%string
       :: [("% c" ++ nl)%string; ("\begin{document}" ++ nl)%string])%list
  = ret 1 /\
  (kept_src <- filterM keep_line
     ([("\newcommand{\x}{y}" ++ nl)%string]
        ++ ("\documentclass[12pt]{article}" ++ nl)%string
        :: [("% c" ++ nl)%string; ("\begin{document}" ++ nl)%string])%list ;;
   strip_class_options 1 kept_src)
  = ret ([("\newcommand{\x}{y}" ++ nl)%string]
           ++ strip_options_after None ("\documentclass[12pt]{article}" ++ nl)
           :: filter kept [("% c" ++ nl)%string;
                           ("\begin{document}" ++ nl)%string])%list.
Proof.
  apply (class_line_edited_when_nothing_dropped_before
           ["\newcommand{\x}{y}" ++ nl]
           ["% c" ++ nl; "\begin{document}" ++ nl]
           ("\documentclass[12pt]{article}" ++ nl)).
  - repeat constructor; discriminate.
  - repeat constructor.
  - reflexivity.
  - reflexivity.
  - reflexivity.
Defined.

(** ** Substitution where the pattern matches once *)

Lemma eat_inv (lit : string) :
  forall st m, In m (eat lit st) -> rest st = lit ++ rest m.
Proof.
  induction lit as [|c lit IH]; intros st m; cbn [eat].
  - intros [<-|[]]; reflexivity.
  - destruct (rest st) as [|d t]; [intros []|].
    destruct (Ascii.eqb_spec c d) as [<-|]; [|intros []].
    intros H; apply IH in H; cbn [rest] in H; rewrite H; reflexivity.
Qed.

Lemma eat_app (lit : string) :
  forall p b k g,
    eat lit (MState p (lit ++ b) k g)
    = [MState (prev_after p lit) b (k + String.length lit) g].
Proof.
  induction lit as [|c lit IH]; intros p b k g;
    cbn [eat append rest taken groups prev_after String.length].
  - rewrite Nat.add_0_r; reflexivity.
  - rewrite Ascii.eqb_refl, IH, Nat.add_succ_r; reflexivity.
Qed.

Lemma str_seq_match_inv (lit : string) (r : regex) (q : option ascii)
  (b : string) (m : mstate) :
  match_at (Str lit >> r) q b = Some m -> exists y, b = lit ++ y.
Proof.
  intros H; apply match_at_in in H; cbn [match_re] in H.
  apply in_flat_map in H as [st [H _]].
  apply eat_inv in H; cbn [start rest] in H; eauto.
Qed.

Lemma str_match_inv (lit : string) (q : option ascii) (b : string)
  (m : mstate) :
  match_at (Str lit) q b = Some m -> exists y, b = lit ++ y.
Proof.
  intros H; apply match_at_in in H; cbn [match_re] in H.
  apply eat_inv in H; cbn [start rest] in H; eauto.
Qed.

Lemma sub_from_skip (r : regex) (repl : string) (x s : string) :
  forall p,
    sub_from r repl p (String.length x) (x ++ s)
    = sub_from r repl (prev_after p x) 0 s.
Proof.
  induction x as [|c x IH]; intros p; [reflexivity|].
  cbn [String.length append prev_after sub_from]; apply IH.
Qed.

Lemma sub_from_unmatched (r : regex) (repl : string) (a s : string) :
  no_match_in r a s ->
  forall p,
    sub_from r repl p 0 (a ++ s) = a ++ sub_from r repl (prev_after p a) 0 s.
Proof.
  induction a as [|c a IH]; intros H p; [reflexivity|].
  cbn [append prev_after sub_from].
  change (String c (a ++ s)) with (String c a ++ s).
  rewrite (H "" (String c a) p eq_refl) by discriminate.
  cbn [append]; rewrite IH; [reflexivity|].
  intros a1 a2 q ->; apply (H (String c a1) a2 q); reflexivity.
Qed.

Lemma sub_from_matched (r : regex) (repl : string) (x s : string)
  (p : option ascii) (st : mstate) :
  x <> "" -> match_at r p (x ++ s) = Some st ->
  taken st = String.length x ->
  sub_from r repl p 0 (x ++ s)
  = repl ++ sub_from r repl (prev_after p x) 0 s.
Proof.
  destruct x as [|c x]; [contradiction|]; intros _ Hm Ht.
  cbn [append sub_from]; change (String c (x ++ s)) with (String c x ++ s).
  rewrite Hm, Ht; cbn [String.length prev_after].
  rewrite sub_from_skip; reflexivity.
Qed.

Lemma sub_from_no_match (r : regex) (repl : string) (s : string) :
  no_match r s -> forall p, sub_from r repl p 0 s = s.
Proof.
  induction s as [|c s IH]; intros H p; cbn [sub_from].
  - rewrite (H "" "" p eq_refl); reflexivity.
  - rewrite (H "" (String c s) p eq_refl), IH; [reflexivity|].
    intros a b q ->; apply (H (String c a) b q); reflexivity.
Qed.

Lemma search_from_unmatched (r : regex) (a s : string) :
  no_match_in r a s ->
  forall p, search_from r p (a ++ s) = search_from r (prev_after p a) s.
Proof.
  induction a as [|c a IH]; intros H p; [reflexivity|].
  cbn [append prev_after]; rewrite search_from_unfold.
  change (String c (a ++ s)) with (String c a ++ s).
  rewrite (H "" (String c a) p eq_refl) by discriminate.
  cbn [append]; apply IH.
  intros a1 a2 q ->; apply (H (String c a1) a2 q); reflexivity.
Qed.

Lemma search_from_here (r : regex) (p : option ascii) (s : string)
  (m : mstate) :
  match_at r p s = Some m -> search_from r p s = Some m.
Proof. intros H; rewrite search_from_unfold, H; reflexivity. Qed.

Lemma no_match_contains (lit s : string) :
  no_match (Str lit) s -> contains lit s = false.
Proof.
  intros H; destruct (contains lit s) eqn:E; [|reflexivity].
  apply contains_inv in E as [a [b ->]].
  specialize (H a (lit ++ b) None eq_refl).
  unfold match_at, start in H; cbn [match_re] in H.
  rewrite eat_app in H; discriminate.
Qed.

(** Patterns that can only match where [\i] starts. *)
Section HeadLiteral.

Variable r : regex.
Hypothesis head_literal :
  forall q b, String.prefix "\i" b = false -> match_at r q b = None.

Lemma nm_nil : no_match r "".
Proof.
  intros a b q H; apply head_literal.
  destruct a; [|discriminate]; cbn [append] in H; subst b; reflexivity.
Qed.

Lemma nm_cons (c : ascii) (s : string) :
  (forall q, match_at r q (String c s) = None) ->
  no_match r s -> no_match r (String c s).
Proof.
  intros Hc Hs a b q H; destruct a as [|d a]; cbn [append] in H.
  - subst b; apply Hc.
  - injection H as -> ->; apply (Hs a b q eq_refl).
Qed.

Lemma nm_other (c : ascii) (s : string) :
  c <> "\"%char -> no_match r s -> no_match r (String c s).
Proof.
  intros Hc; apply nm_cons; intros q; apply head_literal.
  cbn [String.prefix]; destruct (ascii_dec "\" c); [congruence|reflexivity].
Qed.

Lemma nm_free (f s : string) :
  free_of "\" f = true -> no_match r s -> no_match r (f ++ s).
Proof.
  induction f as [|c f IH]; intros H Hs; [exact Hs|].
  cbn [free_of] in H; apply andb_prop in H as [Hc Hf].
  cbn [append]; apply nm_other; [|exact (IH Hf Hs)].
  intros ->; discriminate Hc.
Qed.

Lemma nm_contains (s : string) : contains "\i" s = false -> no_match r s.
Proof.
  intros H a b q ->; apply head_literal, (not_contains_app _ a), H.
Qed.

Lemma nmi_prefix (a s : string) :
  contains "\i" a = false -> String.prefix "i" s = false ->
  no_match_in r a s.
Proof.
  intros Ha Hs a1 a2 q -> Hne; apply head_literal.
  apply (not_contains_app _ a1) in Ha.
  destruct a2 as [|c [|d a2]]; [contradiction| |].
  - cbn [append String.prefix] in *.
    destruct (ascii_dec "\" c); [exact Hs | reflexivity].
  - cbn [append String.prefix] in *.
    destruct (ascii_dec "\" c); [|reflexivity].
    destruct (ascii_dec "i" d); [|reflexivity].
    destruct a2; discriminate Ha.
Qed.

Lemma nm_prefix (a s : string) :
  no_match_in r a s -> no_match r s -> no_match r (a ++ s).
Proof.
  induction a as [|c a IH]; intros Ha Hs; [exact Hs|].
  cbn [append]; apply nm_cons.
  - intros q; apply (Ha "" (String c a) q eq_refl); discriminate.
  - apply IH; [|exact Hs].
    intros a1 a2 q ->; apply (Ha (String c a1) a2 q); reflexivity.
Qed.

End HeadLiteral.

Lemma head_literal_seq (l : string) (r : regex) :
  forall q b,
    String.prefix "\i" b = false ->
    match_at (Str ("\i" ++ l) >> r) q b = None.
Proof.
  intros q b H.
  destruct (match_at _ q b) eqn:E; [|reflexivity].
  apply str_seq_match_inv in E as [y ->].
  rewrite append_assoc, prefix_app_self in H; discriminate.
Qed.

Lemma head_literal_str (l : string) :
  forall q b,
    String.prefix "\i" b = false -> match_at (Str ("\i" ++ l)) q b = None.
Proof.
  intros q b H.
  destruct (match_at _ q b) eqn:E; [|reflexivity].
  apply str_match_inv in E as [y ->].
  rewrite append_assoc, prefix_app_self in H; discriminate.
Qed.

Lemma width_head : forall q b,
  String.prefix "\i" b = false -> match_at width_re q b = None.
Proof. exact (head_literal_seq "ncludegraphics[width=" _). Qed.

Lemma scale_head : forall q b,
  String.prefix "\i" b = false -> match_at scale_re q b = None.
Proof. exact (head_literal_seq "ncludegraphics[scale=" _). Qed.

Lemma bare_head : forall q b,
  String.prefix "\i" b = false -> match_at bare_re q b = None.
Proof. exact (head_literal_str "ncludegraphics{"). Qed.

(** ** Figure lines *)

Ltac nm_literal head :=
  cbn [append];
  repeat (apply (nm_other _ head); [discriminate|]).

(** A figure without options gets an explicit half scale: the text before
    and after the command, free of [\i], is kept as it is. *)
Theorem bare_figure_gets_half_scale :
  forall (float_half : string -> result string) (a y : string),
    contains "\i" a = false -> contains "\i" y = false ->
    figure_line float_half (a ++ "\includegraphics{" ++ y)
    = ret (a ++ "\includegraphics[scale=0.5]{" ++ y).
Proof.
  intros float_half a y Ha Hy; unfold figure_line.
  assert (Hw : Re.search width_re (a ++ "\includegraphics{" ++ y) = None).
  { apply search_from_none, nm_prefix.
    - apply (nmi_prefix _ width_head); [exact Ha | reflexivity].
    - cbn [append]; apply nm_cons; [intros q; reflexivity|].
      nm_literal width_head; apply (nm_contains _ width_head), Hy. }
  rewrite Hw, contains_intro.
  unfold Re.sub.
  change (expand "\\includegraphics[scale=0.5]{")
    with (ret "\includegraphics[scale=0.5]{").
  cbn [bind ret]; f_equal.
  rewrite sub_from_unmatched
    by (apply (nmi_prefix _ bare_head); [exact Ha | reflexivity]).
  f_equal.
  erewrite sub_from_matched.
  - rewrite sub_from_no_match; [reflexivity|].
    apply (nm_contains _ bare_head), Hy.
  - discriminate.
  - unfold match_at, bare_re, start; cbn [match_re].
    rewrite eat_app; reflexivity.
  - reflexivity.
Qed.

Lemma bare_figure_gets_half_scale_witness :
  figure_line PyFloat.half_repr
    ("  \centering" ++ "\includegraphics{" ++ "fig}" ++ nl)
  = ret ("  \centering" ++ "\includegraphics[scale=0.5]{" ++ "fig}" ++ nl).
Proof.
  apply (bare_figure_gets_half_scale PyFloat.half_repr);
    reflexivity.
Defined.

Lemma many1_stop (p : ascii -> bool) (s : string) (k : nat) :
  opt_test p (match s with String c _ => Some c | "" => None end) = false ->
  many1 p s k = [].
Proof.
  destruct s as [|c s]; cbn [opt_test many1]; [reflexivity|].
  intros ->; reflexivity.
Qed.

(** The longest run comes first. *)
Lemma many1_greedy (p : ascii -> bool) (f s : string) :
  f <> "" -> all_of p f = true ->
  opt_test p (match s with String c _ => Some c | "" => None end) = false ->
  forall k, exists c tl,
    many1 p (f ++ s) k = (c, s, k + String.length f) :: tl.
Proof.
  intros Hne Hf Hs; induction f as [|x f IH]; [contradiction|]; intros k.
  cbn [all_of] in Hf; apply andb_prop in Hf as [Hx Hf].
  cbn [append many1 String.length]; rewrite Hx.
  destruct f as [|x' f].
  - cbn [append]; rewrite (many1_stop _ _ _ Hs).
    exists x, []; rewrite Nat.add_1_r; reflexivity.
  - destruct (IH ltac:(discriminate) Hf (S k)) as [c [tl ->]].
    exists c, (tl ++ [(x, (String x' f ++ s)%string, S k)])%list.
    rewrite Nat.add_succ_r; reflexivity.
Qed.

Lemma substring_prefix (f s : string) :
  substring 0 (String.length f) (f ++ s) = f.
Proof.
  induction f as [|c f IH]; cbn [String.length append substring].
  - destruct s; reflexivity.
  - rewrite IH; reflexivity.
Qed.

Lemma numeral_free (f : string) :
  all_of dot_or_digit f = true -> free_of "\" f = true.
Proof.
  induction f as [|c f IH]; cbn [all_of free_of]; [reflexivity|].
  intros H; apply andb_prop in H as [Hc Hf]; rewrite (IH Hf), andb_true_r.
  destruct (Ascii.eqb_spec "\" c) as [<-|]; [discriminate Hc | reflexivity].
Qed.

Lemma expand_plain (f t : string) :
  free_of "\" f = true ->
  expand (f ++ t) = (u <- expand t ;; ret (f ++ u)).
Proof.
  induction f as [|c f IH]; cbn [free_of append]; intros H.
  - destruct (expand t); reflexivity.
  - apply andb_prop in H as [Hc Hf]; apply negb_true_iff in Hc.
    cbn [expand]; rewrite Ascii.eqb_sym, Hc, (IH Hf).
    destruct (expand t); reflexivity.
Qed.

Lemma expand_backslash (t : string) :
  expand ("\\" ++ t) = (u <- expand t ;; ret ("\" ++ u)).
Proof. reflexivity. Qed.

Lemma scale_match (q : option ascii) (f y : string) :
  f <> "" -> all_of dot_or_digit f = true ->
  match_at scale_re q ("\includegraphics[scale=" ++ f ++ "]" ++ y)
  = Some (MState (Some "]"%char) y
            (S (String.length "\includegraphics[scale=" + String.length f))
            [(1, f)]).
Proof.
  intros Hne Hf; unfold match_at, scale_re, start; cbn [match_re].
  rewrite eat_app; cbn [flat_map match_re rest taken groups].
  destruct (many1_greedy dot_or_digit f ("]" ++ y) Hne Hf eq_refl
              (0 + String.length "\includegraphics[scale="))
    as [c [tl ->]].
  cbn [map flat_map eat rest taken groups prev app].
  rewrite Nat.add_comm, Nat.add_sub, substring_prefix.
  cbn [Ascii.eqb Bool.eqb]; rewrite Nat.add_comm; reflexivity.
Qed.

Lemma string_length_app (a b : string) :
  String.length (a ++ b) = String.length a + String.length b.
Proof.
  induction a as [|c a IH]; cbn [append String.length Nat.add];
    [reflexivity | rewrite IH; reflexivity].
Qed.

Lemma width_match (q : option ascii) (f u y : string) :
  f <> "" -> all_of dot_or_digit f = true ->
  u = "line" \/ u = "text" ->
  match_at width_re q
    ("\includegraphics[width=" ++ f ++ "\" ++ u ++ "width]" ++ y)
  = Some (MState (Some "]"%char) y
            (String.length
               ("\includegraphics[width=" ++ f ++ "\" ++ u ++ "width]"))
            [(2, u); (1, f)]).
Proof.
  intros Hne Hf Hu; unfold match_at, width_re, start; cbn [match_re].
  rewrite eat_app; cbn [flat_map match_re rest taken groups].
  destruct (many1_greedy dot_or_digit f ("\" ++ u ++ "width]" ++ y) Hne Hf
              eq_refl (0 + String.length "\includegraphics[width="))
    as [c [tl ->]].
  cbn [map flat_map rest taken groups prev app].
  rewrite (eat_app "\"); cbn [flat_map app match_re rest taken groups].
  rewrite !string_length_app.
  destruct Hu as [-> | ->].
  - rewrite (eat_app "line"); cbn [map app flat_map rest taken groups prev].
    rewrite (eat_app "width]"); cbn [app].
    do 2 f_equal.
    + cbn [String.length]; lia.
    + do 2 f_equal.
      * f_equal; replace (_ - _) with 4 by (cbn [String.length]; lia).
        reflexivity.
      * f_equal; rewrite Nat.add_comm, Nat.add_sub.
        apply substring_prefix.
  - replace (eat "line" _) with (@nil mstate) by reflexivity.
    rewrite (eat_app "text"); cbn [map app flat_map rest taken groups prev].
    rewrite (eat_app "width]"); cbn [app].
    do 2 f_equal.
    + cbn [String.length]; lia.
    + do 2 f_equal.
      * f_equal; replace (_ - _) with 4 by (cbn [String.length]; lia).
        reflexivity.
      * f_equal; rewrite Nat.add_comm, Nat.add_sub.
        apply substring_prefix.
Qed.

(** A line with one figure whose width is a fraction of the line or text
    width has that figure capped at the same fraction of the text width
    and height, keeping the aspect ratio; the rest of the line, free of
    [\i], is kept as it is. *)
Theorem width_figure_capped :
  forall (float_half : string -> result string) (a f u y : string),
    contains "\i" a = false -> contains "\i" y = false ->
    f <> "" -> all_of dot_or_digit f = true ->
    u = "line" \/ u = "text" ->
    figure_line float_half
      (a ++ "\includegraphics[width=" ++ f ++ "\" ++ u ++ "width]" ++ y)
    = ret (a ++ "\includegraphics[width=" ++ f ++ "\textwidth,height=" ++ f
             ++ "\textheight,keepaspectratio]" ++ y).
Proof.
  intros float_half a f u y Ha Hy Hne Hf Hu; unfold figure_line, Re.search.
  assert (Hin : no_match_in width_re a
                  ("\includegraphics[width=" ++ f ++ "\" ++ u
                     ++ "width]" ++ y))
    by (apply (nmi_prefix _ width_head); [exact Ha | reflexivity]).
  rewrite (search_from_unmatched _ _ _ Hin).
  rewrite (search_from_here _ _ _ _ (width_match _ f u y Hne Hf Hu)).
  cbv iota; change (group 1 _) with f.
  unfold Re.sub.
  change ("\\includegraphics[width=" ++ f ++ "\\textwidth,height=" ++ f
            ++ "\\textheight,keepaspectratio]")
    with ("\\" ++ "includegraphics[width=" ++ f ++ "\\" ++ "textwidth,height="
            ++ f ++ "\\" ++ "textheight,keepaspectratio]").
  pose proof (numeral_free f Hf) as Hfree.
  rewrite expand_backslash, (expand_plain "includegraphics[width=")
    by reflexivity.
  rewrite (expand_plain f), expand_backslash by assumption.
  rewrite (expand_plain "textwidth,height=") by reflexivity.
  rewrite (expand_plain f), expand_backslash by assumption.
  change (expand "textheight,keepaspectratio]")
    with (ret "textheight,keepaspectratio]").
  cbn [bind ret]; f_equal.
  rewrite (sub_from_unmatched _ _ _ _ Hin); f_equal.
  replace ("\includegraphics[width=" ++ f ++ "\" ++ u ++ "width]" ++ y)
    with (("\includegraphics[width=" ++ f ++ "\" ++ u ++ "width]") ++ y)
    by (rewrite !append_assoc; reflexivity).
  erewrite sub_from_matched.
  - rewrite sub_from_no_match by (apply (nm_contains _ width_head), Hy).
    rewrite !append_assoc; reflexivity.
  - discriminate.
  - rewrite !append_assoc; apply width_match; assumption.
  - reflexivity.
Qed.

Lemma width_figure_capped_witness :
  figure_line PyFloat.half_repr
    ("  " ++ "\includegraphics[width=" ++ "0.9" ++ "\" ++ "line" ++ "width]"
       ++ "{fig}" ++ nl)
  = ret ("  " ++ "\includegraphics[width=" ++ "0.9" ++ "\textwidth,height="
           ++ "0.9" ++ "\textheight,keepaspectratio]" ++ "{fig}" ++ nl).
Proof.
  apply (width_figure_capped PyFloat.half_repr "  " "0.9" "line"
           ("{fig}" ++ nl)); try reflexivity.
  - discriminate.
  - left; reflexivity.
Defined.

Lemma expand_kept_escape (d : ascii) (t : string) :
  escape d = None -> is_word d = false ->
  expand (String "\" (String d t))
  = (u <- expand t ;; ret (String "\" (String d u))).
Proof.
  intros He Hw; cbn [expand]; rewrite Ascii.eqb_refl, He, Hw; reflexivity.
Qed.

(** A line with one scaled figure: the numeral goes through [float]; when
    [float] rejects it (as it does [1.2.3]) the exception leaves
    [figure_line], and so the whole rewrite; otherwise the figure is
    rewritten with the halved value between brackets that keep the
    backslashes of the template. *)
Theorem scaled_figure_rewritten :
  forall (float_half : string -> result string) (a f y : string),
    contains "\i" a = false -> contains "\i" y = false ->
    f <> "" -> all_of dot_or_digit f = true ->
    (forall e,
       float_half f = raise e ->
       figure_line float_half
         (a ++ "\includegraphics[scale=" ++ f ++ "]" ++ y) = raise e) /\
    (forall half,
       float_half f = ret half -> free_of "\" half = true ->
       figure_line float_half
         (a ++ "\includegraphics[scale=" ++ f ++ "]" ++ y)
       = ret (a ++ "\includegraphics\[scale=" ++ half ++ "\]" ++ y)).
Proof.
  intros float_half a f y Ha Hy Hne Hf.
  pose proof (numeral_free f Hf) as Hfree.
  assert (Hw : Re.search width_re
                 (a ++ "\includegraphics[scale=" ++ f ++ "]" ++ y) = None).
  { apply search_from_none, nm_prefix.
    - apply (nmi_prefix _ width_head); [exact Ha | reflexivity].
    - cbn [append]; apply nm_cons; [intros q; reflexivity|].
      nm_literal width_head.
      apply (nm_free _ width_head); [exact Hfree|].
      nm_literal width_head; apply (nm_contains _ width_head), Hy. }
  assert (Hb : contains "\includegraphics{"
                 (a ++ "\includegraphics[scale=" ++ f ++ "]" ++ y) = false).
  { apply no_match_contains.
    change (Str "\includegraphics{") with bare_re; apply nm_prefix.
    - apply (nmi_prefix _ bare_head); [exact Ha | reflexivity].
    - cbn [append]; apply nm_cons; [intros q; reflexivity|].
      nm_literal bare_head.
      apply (nm_free _ bare_head); [exact Hfree|].
      nm_literal bare_head; apply (nm_contains _ bare_head), Hy. }
  assert (Hin : no_match_in scale_re a
                  ("\includegraphics[scale=" ++ f ++ "]" ++ y))
    by (apply (nmi_prefix _ scale_head); [exact Ha | reflexivity]).
  assert (E : figure_line float_half
                (a ++ "\includegraphics[scale=" ++ f ++ "]" ++ y)
              = (half <- float_half f ;;
                 Re.sub scale_re ("\\includegraphics\[scale=" ++ half ++ "\]")
                   (a ++ "\includegraphics[scale=" ++ f ++ "]" ++ y))).
  { unfold figure_line; rewrite Hw, Hb; unfold Re.search.
    rewrite (search_from_unmatched _ _ _ Hin).
    rewrite (search_from_here _ _ _ _ (scale_match _ f y Hne Hf)).
    reflexivity. }
  rewrite E; split.
  - intros e ->; reflexivity.
  - intros half -> Hh; cbn [bind ret]; unfold Re.sub.
    change ("\\includegraphics\[scale=" ++ half ++ "\]")
      with ("\\" ++ "includegraphics"
              ++ String "\" (String "[" ("scale=" ++ half ++ "\]"))).
    rewrite expand_backslash, (expand_plain "includegraphics") by reflexivity.
    rewrite expand_kept_escape by reflexivity.
    rewrite (expand_plain "scale=") by reflexivity.
    rewrite (expand_plain half) by assumption.
    change (expand "\]") with (ret "\]").
    cbn [bind ret]; f_equal.
    rewrite (sub_from_unmatched _ _ _ _ Hin); f_equal.
    replace ("\includegraphics[scale=" ++ f ++ "]" ++ y)
      with (("\includegraphics[scale=" ++ f ++ "]") ++ y)
      by (rewrite !append_assoc; reflexivity).
    erewrite sub_from_matched.
    + rewrite sub_from_no_match by (apply (nm_contains _ scale_head), Hy).
      rewrite !append_assoc; cbn [append]; rewrite !append_assoc.
      reflexivity.
    + discriminate.
    + rewrite !append_assoc; apply scale_match; assumption.
    + cbn [taken]; rewrite !string_length_app; cbn [String.length]; lia.
Qed.

Lemma scaled_figure_rewritten_witness :
  figure_line PyFloat.half_repr
    ("" ++ "\includegraphics[scale=" ++ "1.2.3" ++ "]" ++ "{fig}" ++ nl)
  = raise (ValueError "could not convert string to float") /\
  figure_line PyFloat.half_repr
    ("" ++ "\includegraphics[scale=" ++ "0.4" ++ "]" ++ "{fig}" ++ nl)
  = ret ("" ++ "\includegraphics\[scale=" ++ "0.2" ++ "\]" ++ "{fig}" ++ nl).
Proof.
  split.
  - apply (proj1 (scaled_figure_rewritten PyFloat.half_repr "" "1.2.3"
                    ("{fig}" ++ nl) eq_refl eq_refl
                    ltac:(discriminate) eq_refl)).
    reflexivity.
  - apply (proj2 (scaled_figure_rewritten PyFloat.half_repr "" "0.4"
                    ("{fig}" ++ nl) eq_refl eq_refl
                    ltac:(discriminate) eq_refl));
      reflexivity.
Defined.

(** ** Lines the substitutions leave alone *)

Lemma token_match_inv (p : ascii -> bool) (lit : string) (q : option ascii)
  (b : string) (m : mstate) :
  match_at (WordB >> Plus p >> Str lit >> WordB) q b = Some m ->
  exists t y, b = t ++ lit ++ y.
Proof.
  intros H; apply match_at_in in H; cbn [match_re] in H.
  apply in_flat_map in H as [st1 [H1 H]].
  destruct (xorb _ _); [|contradiction]; destruct H1 as [<-|[]].
  apply in_flat_map in H as [st2 [H2 H]].
  apply in_map_iff in H2 as [[[c r] k] [<- H2]].
  apply many1_inv in H2 as [t [_ Ht]]; cbn [start rest] in Ht.
  apply in_flat_map in H as [st3 [H3 _]].
  apply eat_inv in H3; cbn [rest] in H3.
  exists t, (rest st3); rewrite Ht, H3; reflexivity.
Qed.

Lemma token_no_match (p : ascii -> bool) (lit line : string) :
  contains lit line = false ->
  no_match (WordB >> Plus p >> Str lit >> WordB) line.
Proof.
  intros H a b q ->.
  destruct (match_at _ q b) eqn:E; [|reflexivity].
  apply token_match_inv in E as [t [y ->]].
  rewrite <- append_assoc, contains_intro in H; discriminate.
Qed.

Lemma comma_free (a y : string) : free_of "," (a ++ "," ++ y) = false.
Proof.
  rewrite free_of_app; cbn [append free_of Ascii.eqb Bool.eqb negb andb].
  apply andb_false_r.
Qed.

Lemma leading_comma_no_match (line : string) :
  free_of "," line = true -> no_match leading_comma_re line.
Proof.
  intros H a b q ->.
  destruct (match_at _ q b) eqn:E; [|reflexivity].
  apply match_at_in in E; unfold leading_comma_re in E; cbn [match_re] in E.
  apply in_flat_map in E as [st1 [H1 E]].
  destruct (opt_test _ _); [|contradiction]; destruct H1 as [<-|[]].
  apply eat_inv in E; cbn [start rest] in E; subst b.
  rewrite comma_free in H; discriminate.
Qed.

Lemma trailing_comma_no_match (line : string) :
  free_of "," line = true -> no_match trailing_comma_re line.
Proof.
  intros H a b q ->.
  destruct (match_at _ q b) eqn:E; [|reflexivity].
  apply str_seq_match_inv in E as [y ->].
  rewrite comma_free in H; discriminate.
Qed.

(** A line that holds no comma and none of [pt], [column] and [paper] is
    left as it is by the five substitutions, wherever it stands in the
    file. *)
Theorem class_options_untouched :
  forall (pre post : list string) (line : string),
    contains "pt" line = false -> contains "column" line = false ->
    contains "paper" line = false -> free_of "," line = true ->
    strip_class_options (List.length pre) (pre ++ line :: post)%list
    = ret (pre ++ line :: post)%list.
Proof.
  intros pre post line Hpt Hcol Hpap Hcomma.
  rewrite strip_class_options_app; unfold strip_options_after.
  rewrite (sub_from_no_match font_size_re)
    by (apply token_no_match; assumption).
  rewrite (sub_from_no_match column_re)
    by (apply token_no_match; assumption).
  rewrite (sub_from_no_match paper_re)
    by (apply token_no_match; assumption).
  rewrite (sub_from_no_match leading_comma_re)
    by (apply leading_comma_no_match; assumption).
  rewrite (sub_from_no_match trailing_comma_re)
    by (apply trailing_comma_no_match; assumption).
  reflexivity.
Qed.

Lemma class_options_untouched_witness :
  strip_class_options (List.length [("% c" ++ nl)%string])
    ([("% c" ++ nl)%string]
       ++ ("\documentclass[draft]{article}" ++ nl)%string :: [])%list
  = ret ([("% c" ++ nl)%string]
           ++ ("\documentclass[draft]{article}" ++ nl)%string :: [])%list.
Proof.
  apply (class_options_untouched [("% c" ++ nl)%string] []
           ("\documentclass[draft]{article}" ++ nl)); reflexivity.
Defined.

Lemma graphics_no_match (l : string) (r : regex) (line : string) :
  contains "\includegraphics" line = false ->
  no_match (Str ("\includegraphics" ++ l) >> r) line.
Proof.
  intros H a b q ->.
  destruct (match_at _ q b) eqn:E; [|reflexivity].
  apply str_seq_match_inv in E as [y ->].
  rewrite append_assoc, contains_intro in H; discriminate.
Qed.

Lemma figure_line_no_graphics (float_half : string -> result string)
  (line : string) :
  contains "\includegraphics" line = false ->
  figure_line float_half line = ret line.
Proof.
  intros H; unfold figure_line, Re.search.
  rewrite (search_from_none width_re line
             (graphics_no_match "[width=" _ line H)).
  replace (contains "\includegraphics{" line) with false.
  - rewrite (search_from_none scale_re line
               (graphics_no_match "[scale=" _ line H)).
    reflexivity.
  - symmetry; destruct (contains "\includegraphics{" line) eqn:E;
      [|reflexivity].
    apply contains_inv in E as [a [b ->]].
    change ("\includegraphics{" ++ b) with ("\includegraphics" ++ "{" ++ b)
      in H.
    rewrite contains_intro in H; discriminate.
Qed.

(** The figure pass and the inline-math pass change nothing in lines that
    hold neither [\includegraphics] nor a dollar sign, and cannot fail on
    them. *)
Theorem later_passes_leave_other_lines :
  forall (float_half : string -> result string) (src : list string),
    Forall (fun line => contains "\includegraphics" line = false /\
                        free_of "$" line = true) src ->
    later_passes float_half src = ret src.
Proof.
  intros float_half src H; rewrite Forall_forall in H.
  unfold later_passes; rewrite mapM_fixed.
  - cbn [bind ret]; f_equal; apply map_fixed.
    intros line Hl; apply sloppy_line_plain, (H line Hl).
  - intros line Hl; apply figure_line_no_graphics, (H line Hl).
Qed.

Lemma later_passes_leave_other_lines_witness :
  later_passes PyFloat.half_repr
    ["\section{Intro}" ++ nl; "\item one" ++ nl]
  = ret ["\section{Intro}" ++ nl; "\item one" ++ nl].
Proof.
  apply (later_passes_leave_other_lines PyFloat.half_repr
           ["\section{Intro}" ++ nl; "\item one" ++ nl]).
  repeat constructor.
Defined.

(** ** The work directory after the Normalizer *)

Lemma rewrite_style_clean (src : list string) :
  Forall (fun line => ~ bare_twocolumn line) (Normalizer.rewrite_style src).
Proof.
  rewrite rewrite_style_filter; apply Forall_forall; intros line H.
  apply filter_In in H as [_ H]; apply negb_true_iff in H.
  apply String.eqb_neq in H; rewrite <- strip_twocolumn; exact H.
Qed.


(** After the Normalizer no style file of the directory holds a bare
    two-column line. *)
Theorem normalizer_leaves_no_bare_twocolumn :
  forall (work_dir : list (string * list string)) filename out,
    In (filename, out) (Normalizer.make_single_column work_dir) ->
    endswith ".sty" filename = true ->
    Forall (fun line => ~ bare_twocolumn line) out.
Proof.
  intros work_dir filename out Hin Hsty.
  unfold Normalizer.make_single_column in Hin.
  apply in_map_iff in Hin as [[n src] [E _]].
  destruct (endswith ".sty" n) eqn:En; injection E as -> <-.
  - apply rewrite_style_clean.
  - rewrite Hsty in En; discriminate.
Qed.

Lemma normalizer_leaves_no_bare_twocolumn_witness :
  Forall (fun line => ~ bare_twocolumn line) ["\twocolumnx" ++ nl].
Proof.
  apply (normalizer_leaves_no_bare_twocolumn
           [("icml.sty", [" \twocolumn " ++ nl; "\twocolumnx" ++ nl])]
           "icml.sty").
  - left; reflexivity.
  - reflexivity.
Defined.

(** The Normalizer keeps the files of the directory, by name and in
    order, and changes no file whose name does not end in [.sty], the main
    file among them. *)
Theorem normalizer_touches_style_files_only :
  forall work_dir : list (string * list string),
    map fst (Normalizer.make_single_column work_dir) = map fst work_dir /\
    forall filename src,
      In (filename, src) work_dir -> endswith ".sty" filename = false ->
      In (filename, src) (Normalizer.make_single_column work_dir).
Proof.
  intros work_dir; unfold Normalizer.make_single_column; split.
  - rewrite map_map; apply map_ext; intros [n src].
    destruct (endswith ".sty" n); reflexivity.
  - intros filename src Hin Hn; apply in_map_iff.
    exists (filename, src); rewrite Hn; auto.
Qed.

Lemma normalizer_touches_style_files_only_witness :
  In ("main.tex", ["\twocolumn" ++ nl])
     (Normalizer.make_single_column
        [("main.tex", ["\twocolumn" ++ nl]);
         ("icml.sty", ["\twocolumn" ++ nl])]).
Proof.
  apply (proj2 (normalizer_touches_style_files_only
                  [("main.tex", ["\twocolumn" ++ nl]);
                   ("icml.sty", ["\twocolumn" ++ nl])])).
  - left; reflexivity.
  - reflexivity.
Defined.





(** On the text of a style file the rewriting is idempotent, and what it
    writes reads back as lines without a bare two-column line. *)
Theorem style_text_rewrite_idempotent :
  forall text : string,
    Normalizer.rewrite_style_text (Normalizer.rewrite_style_text text)
    = Normalizer.rewrite_style_text text /\
    Forall (fun line => ~ bare_twocolumn line)
           (readlines (Normalizer.rewrite_style_text text)).
Proof.
  intros text; unfold Normalizer.rewrite_style_text.
  assert (H : readlines (writelines
                (Normalizer.rewrite_style (readlines text)))
              = Normalizer.rewrite_style (readlines text)).
  { apply readlines_writelines; rewrite rewrite_style_filter.
    apply file_lines_filter, readlines_file_lines. }
  rewrite H, rewrite_style_idem; split;
    [reflexivity | apply rewrite_style_clean].
Qed.

(** ** The prerequisite check *)

(** The check passes exactly when [pdflatex] runs and returns zero and, in
    landscape mode, [pdftk] does too; a [pdflatex] that returns another
    code is reported first; and a portrait run does not depend on
    [pdftk]. *)
Theorem check_prerec_outcomes :
  forall (run : list string -> result Z) (landscape : bool),
    (Prereq.check_prerec run landscape = ret tt <->
     run ["pdflatex"; "--version"] = ret 0%Z /\
     (landscape = true -> run ["pdftk"; "--version"] = ret 0%Z)) /\
    (forall code,
       run ["pdflatex"; "--version"] = ret code -> code <> 0%Z ->
       Prereq.check_prerec run landscape
       = raise (SystemError "no pdflatex found")) /\
    (forall run' : list string -> result Z,
       run' ["pdflatex"; "--version"] = run ["pdflatex"; "--version"] ->
       Prereq.check_prerec run' false = Prereq.check_prerec run false).
Proof.
  intros run landscape; unfold Prereq.check_prerec; split; [|split].
  - destruct (run ["pdflatex"; "--version"]) as [e|code]; cbn [bind].
    + split; [discriminate | intros [H _]; discriminate].
    + destruct (Z.eqb_spec code 0) as [->|Hc]; cbn [negb].
      * destruct landscape.
        -- destruct (run ["pdftk"; "--version"]) as [e|code2]; cbn [bind].
           ++ split; [discriminate | intros [_ H]; discriminate (H eq_refl)].
           ++ destruct (Z.eqb_spec code2 0) as [->|Hc2]; cbn [negb].
              ** split; auto.
              ** split; [discriminate|].
                 intros [_ H]; specialize (H eq_refl).
                 unfold ret in H; congruence.
        -- split; [split; [reflexivity | discriminate] | reflexivity].
      * split; [discriminate | intros [H _]; unfold ret in H; congruence].
  - intros code -> Hc; cbn [bind ret].
    apply Z.eqb_neq in Hc; rewrite Hc; reflexivity.
  - intros run' ->; reflexivity.
Qed.

Lemma check_prerec_outcomes_witness :
  Prereq.check_prerec
    (fun cmd => match cmd with
                | "pdflatex" :: _ => ret 1%Z
                | _ => raise (SystemError "not installed")
                end) true
  = raise (SystemError "no pdflatex found").
Proof.
  apply (proj1 (proj2 (check_prerec_outcomes
                         (fun cmd => match cmd with
                                     | "pdflatex" :: _ => ret 1%Z
                                     | _ => raise (SystemError "not installed")
                                     end) true)) 1%Z).
  - reflexivity.
  - discriminate.
Defined.

(** ** The whole rewrite on a document without figures and formulas *)

Lemma indices_from_app (f : string -> bool) (pre post : list string)
  (line : string) :
  Forall (fun l => f l = false) pre -> f line = true ->
  Forall (fun l => f l = false) post ->
  forall k, indices_from f k (pre ++ line :: post)%list
            = [k + List.length pre].
Proof.
  intros Hpre Hl Hpost; induction Hpre as [|x pre Hx _ IH]; intros k;
    cbn [app indices_from List.length].
  - rewrite Hl, Nat.add_0_r; f_equal.
    clear -Hpost; revert k; induction Hpost as [|y post Hy _ IH]; intros k;
      cbn [indices_from]; [reflexivity|].
    rewrite Hy; apply IH.
  - rewrite Hx, IH, Nat.add_succ_r; reflexivity.
Qed.

(** When nothing is dropped before the document-class line, one kept line
    begins the document body, and no kept line holds a figure command or
    a dollar sign, the rewrite does exactly this: it drops the comment and
    blank lines, applies the five substitutions to the document-class
    line, and puts the inserted lines before the body line. *)
Theorem change_size_without_figures_and_formulas :
  forall (float_half : string -> result string)
         (pre mid post : list string) (class_line body_line : string)
         (geom_settings : list (string * string)) (landscape : bool),
    let class_line' := strip_options_after None class_line in
    let head := (pre ++ class_line' :: filter kept mid)%list in
    Forall (fun l => l <> "")
           (pre ++ class_line :: mid ++ body_line :: post)%list ->
    Forall (fun l => contains "\documentclass" l = false) pre ->
    contains "\documentclass" class_line = true ->
    forallb kept pre = true -> kept class_line = true ->
    startswith "\begin{document}" body_line = true ->
    kept body_line = true ->
    Forall (fun l => startswith "\begin{document}" l = false)
           (head ++ filter kept post)%list ->
    Forall (fun l => contains "\includegraphics" l = false /\
                     free_of "$" l = true)
           (head ++ body_line :: filter kept post)%list ->
    plain_settings geom_settings = true ->
    change_size float_half
      (pre ++ class_line :: mid ++ body_line :: post)%list
      geom_settings landscape
    = ret (head ++ inserted_lines geom_settings landscape
             ++ body_line :: filter kept post)%list.
Proof.
  intros float_half pre mid post class_line body_line geom_settings landscape
    class_line' head Hne Hpre Hclass Hkpre Hkclass Hbody Hkbody Hbegin Hquiet
    Hplain.
  unfold change_size.
  rewrite first_index_app by assumption; cbn [bind ret].
  rewrite (kept_filter _ Hne); cbn [bind ret].
  rewrite filter_app, (filter_all _ _ Hkpre); cbn [filter]; rewrite Hkclass.
  rewrite filter_app; cbn [filter]; rewrite Hkbody.
  rewrite strip_class_options_app; cbn [bind ret].
  fold class_line'.
  change (pre ++ class_line' :: filter kept mid
            ++ body_line :: filter kept post)%list
    with (pre ++ (class_line' :: filter kept mid)
            ++ body_line :: filter kept post)%list.
  rewrite app_assoc; fold head.
  apply Forall_app in Hbegin as [Hb1 Hb2].
  rewrite (indices_from_app _ _ _ _ Hb1 Hbody Hb2 0); cbn [Nat.add].
  rewrite insert_preamble_app.
  assert (Hfix : forall line,
             In line (head ++ inserted_lines geom_settings landscape
                        ++ body_line :: filter kept post)%list ->
             figure_line float_half line = ret line /\
             sloppy_line line = line).
  { intros line Hin; rewrite Forall_forall in Hquiet.
    apply in_app_or in Hin as [Hin|Hin];
      [|apply in_app_or in Hin as [Hin|Hin]].
    - destruct (Hquiet line) as [H1 H2]; [apply in_or_app; auto|].
      split; [apply figure_line_no_graphics | apply sloppy_line_plain];
        assumption.
    - apply (inserted_line_fixed _ _ _ _ Hplain Hin).
    - destruct (Hquiet line) as [H1 H2]; [apply in_or_app; auto|].
      split; [apply figure_line_no_graphics | apply sloppy_line_plain];
        assumption. }
  rewrite mapM_fixed by (intros line Hin; apply (Hfix line Hin)).
  cbn [bind ret]; f_equal; apply map_fixed.
  intros line Hin; apply (Hfix line Hin).
Qed.

Lemma change_size_without_figures_and_formulas_witness :
  change_size PyFloat.half_repr
    ([] ++ ("\documentclass[12pt,twocolumn]{article}" ++ nl)%string
        :: [("% packages" ++ nl)%string; ("\usepackage{amsmath}" ++ nl)%string]
        ++ ("\begin{document}" ++ nl)%string
        :: [nl; ("Hello." ++ nl)%string; ("\end{document}" ++ nl)%string])%list
    [("paperwidth", "4in"); ("paperheight", "6in"); ("margin", "0.2in")]
    false
  = ret (([] ++ strip_options_after None
                  ("\documentclass[12pt,twocolumn]{article}" ++ nl)
             :: filter kept [("% packages" ++ nl)%string;
                             ("\usepackage{amsmath}" ++ nl)%string])
           ++ inserted_lines
                [("paperwidth", "4in"); ("paperheight", "6in");
                 ("margin", "0.2in")] false
           ++ ("\begin{document}" ++ nl)%string
           :: filter kept [nl; ("Hello." ++ nl)%string;
                           ("\end{document}" ++ nl)%string])%list.
Proof.
  apply (change_size_without_figures_and_formulas PyFloat.half_repr
           [] [("% packages" ++ nl)%string;
               ("\usepackage{amsmath}" ++ nl)%string]
           [nl; ("Hello." ++ nl)%string; ("\end{document}" ++ nl)%string]
           ("\documentclass[12pt,twocolumn]{article}" ++ nl)
           ("\begin{document}" ++ nl)).
  - repeat constructor; discriminate.
  - constructor.
  - reflexivity.
  - reflexivity.
  - reflexivity.
  - reflexivity.
  - reflexivity.
  - vm_compute; repeat constructor.
  - vm_compute; repeat constructor.
  - reflexivity.
Defined.

Lemma indices_from_length (f : string -> bool) (src : list string) :
  forall k,
    List.length (indices_from f k src) = List.length (filter f src).
Proof.
  induction src as [|x src IH]; intros k; cbn [indices_from filter];
    [reflexivity|].
  destruct (f x); cbn [List.length]; rewrite IH; reflexivity.
Qed.

(** When nothing is dropped before the document-class line, the rewrite
    fails its assertion as soon as the kept lines, the class line already
    edited, do not hold exactly one line that begins the document body:
    none at all, or two. *)
Theorem change_size_needs_one_body_line :
  forall (float_half : string -> result string) (pre post : list string)
         (class_line : string) (geom_settings : list (string * string))
         (landscape : bool),
    Forall (fun l => l <> "") (pre ++ class_line :: post)%list ->
    Forall (fun l => contains "\documentclass" l = false) pre ->
    contains "\documentclass" class_line = true ->
    forallb kept pre = true -> kept class_line = true ->
    List.length
      (filter (startswith "\begin{document}")
         (pre ++ strip_options_after None class_line :: filter kept post)%list)
    <> 1 ->
    change_size float_half (pre ++ class_line :: post)%list
      geom_settings landscape
    = raise AssertionError.
Proof.
  intros float_half pre post class_line geom_settings landscape
    Hne Hpre Hclass Hkpre Hkclass Hcount.
  unfold change_size.
  rewrite first_index_app by assumption; cbn [bind ret].
  rewrite (kept_filter _ Hne); cbn [bind ret].
  rewrite filter_app, (filter_all _ _ Hkpre); cbn [filter]; rewrite Hkclass.
  rewrite strip_class_options_app; cbn [bind ret].
  rewrite <- (indices_from_length _ _ 0) in Hcount.
  destruct (indices_from _ 0 _) as [|i [|j l]]; try reflexivity.
  contradiction Hcount; reflexivity.
Qed.

Lemma change_size_needs_one_body_line_witness :
  change_size PyFloat.half_repr
    ([] ++ ("\documentclass{article}" ++ nl)%string
        :: [("\begin{document}" ++ nl)%string;
            ("\begin{document}" ++ nl)%string])%list
    [] false
  = raise AssertionError.
Proof.
  apply (change_size_needs_one_body_line PyFloat.half_repr []
           [("\begin{document}" ++ nl)%string;
            ("\begin{document}" ++ nl)%string]
           ("\documentclass{article}" ++ nl)).
  - repeat constructor; discriminate.
  - constructor.
  - reflexivity.
  - reflexivity.
  - reflexivity.
  - vm_compute; lia.
Defined.
